(** * AguaSur: the domain layer (entities and use cases) and its properties

    The development follows the Python sources:
    - [src/domain/entities]: [Familia], [Cisterna], [Llenado], [Reporte];
    - [src/infrastructure/repositories]: the four collections, here kept in
      memory as finite maps from document identifier to entity;
    - [src/application/use_cases]: [RegistrarFamilia], [RegistrarCisterna],
      [RegistrarLlenado], [CrearReporte], [ObtenerDashboard];
    - [src/api/routes/reporte_routes]: the endpoint that resolves a report.

    Conventions of the embedding.
    - A Python [int] is a [Z]; a [float] is an exact rational [Q] (rounding of
      binary floating point is not represented).
    - A Python [str] is the list of its Unicode code points.
    - [datetime.now()] is a reading of the clock; every call site receives
      its reading as an argument.
    - A method that mutates [self], and a use case that mutates the
      repositories, is a function from the state before to an outcome paired
      with the state after: an exception keeps the mutations done before it
      was raised. *)

From Stdlib Require Import ZArith QArith Qround List Bool Lia String Ascii
  DecimalString.
From stdpp Require Import gmap list fin_maps.

(** ** Python strings *)

Abbreviation str := (list N).

(** An ASCII literal as a [str]. *)
Definition py (s : string) : str := map N_of_ascii (list_ascii_of_string s).

(** [str.isspace] on one code point: the white space that [str.strip()]
    removes. *)
Definition isspace (c : N) : bool :=
  (((9 <=? c) && (c <=? 13)) || ((28 <=? c) && (c <=? 32))
   || (c =? 133) || (c =? 160) || (c =? 5760)
   || ((8192 <=? c) && (c <=? 8202))
   || (c =? 8232) || (c =? 8233) || (c =? 8239) || (c =? 8287)
   || (c =? 12288))%N.

Fixpoint lstrip (s : str) : str :=
  match s with
  | [] => []
  | c :: s' => if isspace c then lstrip s' else s
  end.

Definition rstrip (s : str) : str := rev (lstrip (rev s)).

Definition strip (s : str) : str := rstrip (lstrip s).

(** Truth value of a string, and of an [Optional[str]]. *)
Definition truthy (s : str) : bool :=
  match s with [] => false | _ :: _ => true end.

Definition truthy_opt (o : option str) : bool :=
  match o with None => false | Some s => truthy s end.

(** The test [not s or not s.strip()] of every [__post_init__]. *)
Definition en_blanco (s : str) : bool :=
  negb (truthy s) || negb (truthy (strip s)).

(** [str(n)] for an [int]. *)
Definition str_of_int (n : Z) : str := py (NilZero.string_of_int (Z.to_int n)).

(** A reading of [datetime.now()]. *)
Definition datetime := Z.

(** ** Exceptions

    The sources raise [ValueError] everywhere; the message tells the raise
    sites apart. *)

Inductive Mensaje :=
  (* Familia.__post_init__ *)
  | DireccionVacia | NumPersonasInvalido | CapacidadAlmacenamientoInvalida
  | ContactoVacio
  (* Cisterna.__post_init__, llenar, consumir *)
  | UbicacionVacia | CapacidadTotalInvalida | NivelActualNegativo
  | NivelMayorQueCapacidad | CantidadInvalida | AguaInsuficiente
  (* Llenado.__post_init__ *)
  | CisternaIdVacio | LitrosInvalidos | CostoNegativo | ProveedorVacio
  | NivelAnteriorNegativo | NivelPosteriorMenor
  (* Reporte.__post_init__ *)
  | FamiliaIdVacio | DescripcionVacia
  (* repositories *)
  | EntidadSinId
  (* use cases *)
  | ContactoYaRegistrado | TipoCisternaInvalido | FamiliaNoEncontrada
  | CisternaNoEncontrada | CisternaNoOperativa | TipoReporteInvalido
  | UrgenciaInvalida.

Inductive Error := ValueError (m : Mensaje).

(** The error kinds of the design document, by raise site. *)
Inductive Clase :=
  ValidationError | NotFoundError | ConflictError | InvalidStateError.

Definition clase (e : Error) : Clase :=
  match e with
  | ValueError ContactoYaRegistrado => ConflictError
  | ValueError FamiliaNoEncontrada | ValueError CisternaNoEncontrada =>
      NotFoundError
  | ValueError CisternaNoOperativa => InvalidStateError
  | ValueError _ => ValidationError
  end.

(** ** Outcomes and mutation *)

Inductive Resultado (A : Type) :=
  | Ok (a : A)
  | Err (e : Error).
Arguments Ok {A} a.
Arguments Err {A} e.

Definition es_ok {A} (r : Resultado A) : bool :=
  match r with Ok _ => true | Err _ => false end.

(** A computation over a mutable state [S]: the outcome and the state left
    behind, also when an exception was raised. *)
Definition M (S A : Type) : Type := S → Resultado A * S.

#[global] Instance M_ret {S} : MRet (M S) := λ A a s, (Ok a, s).

#[global] Instance M_bind {S} : MBind (M S) := λ A B k m s,
  match m s with
  | (Ok a, s') => k a s'
  | (Err e, s') => (Err e, s')
  end.

#[global] Instance M_fmap {S} : FMap (M S) := λ A B f m s,
  match m s with
  | (Ok a, s') => (Ok (f a), s')
  | (Err e, s') => (Err e, s')
  end.

Definition raise {S A} (e : Error) : M S A := λ s, (Err e, s).

Definition get {S} : M S S := λ s, (Ok s, s).

Definition put {S} (s : S) : M S unit := λ _, (Ok tt, s).

Definition modificar {S} (f : S → S) : M S unit := λ s, (Ok tt, f s).

(** [if b: raise e] *)
Definition raise_if {S} (b : bool) (m : Mensaje) : M S unit :=
  if b then raise (ValueError m) else mret tt.

(** A constructor call [C(...)]: the dataclass fields are assigned, then
    [__post_init__] runs on the new object; an exception there leaves no
    object. *)
Definition construir {S} (post_init : M S unit) (campos : S) : Resultado S :=
  match post_init campos with
  | (Ok _, self) => Ok self
  | (Err e, _) => Err e
  end.

(** ** Entity [Cisterna] *)

Inductive TipoCisterna := FAMILIAR | COMUNITARIA | ESCOLAR | CENTRO_SALUD.

Inductive EstadoCisterna := OPERATIVA | DANADA | EN_MANTENIMIENTO | INACTIVA.

#[global] Instance TipoCisterna_eq_dec : EqDecision TipoCisterna.
Proof. solve_decision. Defined.

#[global] Instance EstadoCisterna_eq_dec : EqDecision EstadoCisterna.
Proof. solve_decision. Defined.

Module Cisterna.

Record t := mk {
  ubicacion : str;
  tipo : TipoCisterna;
  capacidad_total : Z;
  nivel_actual : Z;
  latitud : option Q;
  longitud : option Q;
  familia_id : option str;
  estado : EstadoCisterna;
  id : option str;
  fecha_instalacion : option datetime;
  ultima_actualizacion : option datetime
}.

Definition set_ubicacion (v : str) (c : t) : t :=
  mk v (tipo c) (capacidad_total c) (nivel_actual c) (latitud c) (longitud c)
     (familia_id c) (estado c) (id c) (fecha_instalacion c)
     (ultima_actualizacion c).

Definition set_nivel_actual (v : Z) (c : t) : t :=
  mk (ubicacion c) (tipo c) (capacidad_total c) v (latitud c) (longitud c)
     (familia_id c) (estado c) (id c) (fecha_instalacion c)
     (ultima_actualizacion c).

Definition set_estado (v : EstadoCisterna) (c : t) : t :=
  mk (ubicacion c) (tipo c) (capacidad_total c) (nivel_actual c) (latitud c)
     (longitud c) (familia_id c) v (id c) (fecha_instalacion c)
     (ultima_actualizacion c).

Definition set_id (v : option str) (c : t) : t :=
  mk (ubicacion c) (tipo c) (capacidad_total c) (nivel_actual c) (latitud c)
     (longitud c) (familia_id c) (estado c) v (fecha_instalacion c)
     (ultima_actualizacion c).

Definition set_fecha_instalacion (v : option datetime) (c : t) : t :=
  mk (ubicacion c) (tipo c) (capacidad_total c) (nivel_actual c) (latitud c)
     (longitud c) (familia_id c) (estado c) (id c) v
     (ultima_actualizacion c).

Definition set_ultima_actualizacion (v : option datetime) (c : t) : t :=
  mk (ubicacion c) (tipo c) (capacidad_total c) (nivel_actual c) (latitud c)
     (longitud c) (familia_id c) (estado c) (id c) (fecha_instalacion c) v.

(** [__post_init__]; the two clock readings are those of the two defaults.
    The fields [tipo] and [estado] are already enumeration members. *)
Definition post_init (ahora_instalacion ahora_actualizacion : datetime)
  : M t unit :=
  self ← get;
  raise_if (en_blanco (ubicacion self)) UbicacionVacia;;
  raise_if (capacidad_total self <=? 0)%Z CapacidadTotalInvalida;;
  raise_if (nivel_actual self <? 0)%Z NivelActualNegativo;;
  raise_if (nivel_actual self >? capacidad_total self)%Z
           NivelMayorQueCapacidad;;
  modificar (set_ubicacion (strip (ubicacion self)));;
  (if fecha_instalacion self is None
   then modificar (set_fecha_instalacion (Some ahora_instalacion))
   else mret tt);;
  (if ultima_actualizacion self is None
   then modificar (set_ultima_actualizacion (Some ahora_actualizacion))
   else mret tt).

(** [Cisterna(...)] *)
Definition nueva (ahora_instalacion ahora_actualizacion : datetime)
  (campos : t) : Resultado t :=
  construir (post_init ahora_instalacion ahora_actualizacion) campos.

(** Floats are exact rationals here: [nivel / capacidad * 100]. *)
Definition porcentaje_lleno (self : t) : Q :=
  if (capacidad_total self =? 0)%Z then 0%Q
  else (inject_Z (nivel_actual self) / inject_Z (capacidad_total self)
        * 100)%Q.

Definition esta_vacia (self : t) : bool := (nivel_actual self =? 0)%Z.

Definition esta_llena (self : t) : bool :=
  (nivel_actual self >=? capacidad_total self)%Z.

Definition nivel_critico (porcentaje_critico : Q) (self : t) : bool :=
  Qle_bool (porcentaje_lleno self) porcentaje_critico.

Definition nivel_bajo (porcentaje_bajo : Q) (self : t) : bool :=
  Qle_bool (porcentaje_lleno self) porcentaje_bajo.

Definition llenar (ahora : datetime) (litros : Z) : M t unit :=
  raise_if (litros <=? 0)%Z CantidadInvalida;;
  self ← get;
  let nuevo_nivel := (nivel_actual self + litros)%Z in
  (if (nuevo_nivel >? capacidad_total self)%Z
   then modificar (set_nivel_actual (capacidad_total self))
   else modificar (set_nivel_actual nuevo_nivel));;
  modificar (set_ultima_actualizacion (Some ahora)).

Definition consumir (ahora : datetime) (litros : Z) : M t unit :=
  raise_if (litros <=? 0)%Z CantidadInvalida;;
  self ← get;
  raise_if (litros >? nivel_actual self)%Z AguaInsuficiente;;
  modificar (set_nivel_actual (nivel_actual self - litros)%Z);;
  modificar (set_ultima_actualizacion (Some ahora)).

Definition es_prioritaria (self : t) : bool :=
  bool_decide (tipo self ∈ [ESCOLAR; CENTRO_SALUD]).

Definition litros_para_llenar (self : t) : Z :=
  (capacidad_total self - nivel_actual self)%Z.

(** [actualizar_nivel]; its two messages name the conditions that
    [__post_init__] also checks. *)
Definition actualizar_nivel (ahora : datetime) (nuevo_nivel : Z) : M t unit :=
  raise_if (nuevo_nivel <? 0)%Z NivelActualNegativo;;
  self ← get;
  raise_if (nuevo_nivel >? capacidad_total self)%Z NivelMayorQueCapacidad;;
  modificar (set_nivel_actual nuevo_nivel);;
  modificar (set_ultima_actualizacion (Some ahora)).

(** [cambiar_estado]; the argument is an enumeration member. *)
Definition cambiar_estado (nuevo_estado : EstadoCisterna) : M t unit :=
  modificar (set_estado nuevo_estado).

End Cisterna.

(** ** Entity [Familia] *)

Module Familia.

Record t := mk {
  direccion : str;
  num_personas : Z;
  contacto : str;
  capacidad_almacenamiento : Z;
  tiene_cisterna : bool;
  zona : str;
  consumo_promedio_diario : option Q;
  id : option str;
  fecha_registro : option datetime;
  activo : bool
}.

Definition set_direccion (v : str) (f : t) : t :=
  mk v (num_personas f) (contacto f) (capacidad_almacenamiento f)
     (tiene_cisterna f) (zona f) (consumo_promedio_diario f) (id f)
     (fecha_registro f) (activo f).

Definition set_contacto (v : str) (f : t) : t :=
  mk (direccion f) (num_personas f) v (capacidad_almacenamiento f)
     (tiene_cisterna f) (zona f) (consumo_promedio_diario f) (id f)
     (fecha_registro f) (activo f).

Definition set_tiene_cisterna (v : bool) (f : t) : t :=
  mk (direccion f) (num_personas f) (contacto f) (capacidad_almacenamiento f)
     v (zona f) (consumo_promedio_diario f) (id f) (fecha_registro f)
     (activo f).

Definition set_zona (v : str) (f : t) : t :=
  mk (direccion f) (num_personas f) (contacto f) (capacidad_almacenamiento f)
     (tiene_cisterna f) v (consumo_promedio_diario f) (id f)
     (fecha_registro f) (activo f).

Definition set_consumo_promedio_diario (v : option Q) (f : t) : t :=
  mk (direccion f) (num_personas f) (contacto f) (capacidad_almacenamiento f)
     (tiene_cisterna f) (zona f) v (id f) (fecha_registro f) (activo f).

Definition set_id (v : option str) (f : t) : t :=
  mk (direccion f) (num_personas f) (contacto f) (capacidad_almacenamiento f)
     (tiene_cisterna f) (zona f) (consumo_promedio_diario f) v
     (fecha_registro f) (activo f).

Definition set_fecha_registro (v : option datetime) (f : t) : t :=
  mk (direccion f) (num_personas f) (contacto f) (capacidad_almacenamiento f)
     (tiene_cisterna f) (zona f) (consumo_promedio_diario f) (id f) v
     (activo f).

Definition set_activo (v : bool) (f : t) : t :=
  mk (direccion f) (num_personas f) (contacto f) (capacidad_almacenamiento f)
     (tiene_cisterna f) (zona f) (consumo_promedio_diario f) (id f)
     (fecha_registro f) v.

Definition LITROS_POR_PERSONA_DIA : Z := 50.

Definition calcular_consumo_estimado (self : t) : Q :=
  inject_Z (num_personas self * LITROS_POR_PERSONA_DIA).

Definition post_init (ahora : datetime) : M t unit :=
  self ← get;
  raise_if (en_blanco (direccion self)) DireccionVacia;;
  raise_if (num_personas self <=? 0)%Z NumPersonasInvalido;;
  raise_if (capacidad_almacenamiento self <=? 0)%Z
           CapacidadAlmacenamientoInvalida;;
  raise_if (en_blanco (contacto self)) ContactoVacio;;
  modificar (set_direccion (strip (direccion self)));;
  modificar (set_contacto (strip (contacto self)));;
  modificar (set_zona (strip (zona self)));;
  (if fecha_registro self is None
   then modificar (set_fecha_registro (Some ahora))
   else mret tt);;
  (if consumo_promedio_diario self is None
   then modificar (λ f,
          set_consumo_promedio_diario (Some (calcular_consumo_estimado f)) f)
   else mret tt).

(** [Familia(...)] *)
Definition nueva (ahora : datetime) (campos : t) : Resultado t :=
  construir (post_init ahora) campos.

Definition desactivar : M t unit := modificar (set_activo false).

Definition activar : M t unit := modificar (set_activo true).

End Familia.

(** ** Entity [Llenado] *)

Module Llenado.

Record t := mk {
  cisterna_id : str;
  litros_suministrados : Z;
  costo : Q;
  proveedor : str;
  nivel_anterior : Z;
  nivel_posterior : Z;
  fecha : option datetime;
  observaciones : option str;
  id : option str
}.

Definition set_proveedor (v : str) (l : t) : t :=
  mk (cisterna_id l) (litros_suministrados l) (costo l) v (nivel_anterior l)
     (nivel_posterior l) (fecha l) (observaciones l) (id l).

Definition set_fecha (v : option datetime) (l : t) : t :=
  mk (cisterna_id l) (litros_suministrados l) (costo l) (proveedor l)
     (nivel_anterior l) (nivel_posterior l) v (observaciones l) (id l).

Definition set_observaciones (v : option str) (l : t) : t :=
  mk (cisterna_id l) (litros_suministrados l) (costo l) (proveedor l)
     (nivel_anterior l) (nivel_posterior l) (fecha l) v (id l).

Definition set_id (v : option str) (l : t) : t :=
  mk (cisterna_id l) (litros_suministrados l) (costo l) (proveedor l)
     (nivel_anterior l) (nivel_posterior l) (fecha l) (observaciones l) v.

(** [costo < 0] on rationals. *)
Definition negativo (q : Q) : bool := negb (Qle_bool 0 q).

Definition post_init (ahora : datetime) : M t unit :=
  self ← get;
  raise_if (en_blanco (cisterna_id self)) CisternaIdVacio;;
  raise_if (litros_suministrados self <=? 0)%Z LitrosInvalidos;;
  raise_if (negativo (costo self)) CostoNegativo;;
  raise_if (en_blanco (proveedor self)) ProveedorVacio;;
  raise_if (nivel_anterior self <? 0)%Z NivelAnteriorNegativo;;
  raise_if (nivel_posterior self <? nivel_anterior self)%Z
           NivelPosteriorMenor;;
  modificar (set_proveedor (strip (proveedor self)));;
  (if truthy_opt (observaciones self)
   then modificar (set_observaciones (strip <$> observaciones self))
   else mret tt);;
  (if fecha self is None
   then modificar (set_fecha (Some ahora))
   else mret tt).

(** [Llenado(...)] *)
Definition nuevo (ahora : datetime) (campos : t) : Resultado t :=
  construir (post_init ahora) campos.

Definition costo_por_litro (self : t) : Q :=
  if (litros_suministrados self =? 0)%Z then 0%Q
  else (costo self / inject_Z (litros_suministrados self))%Q.

Definition es_llenado_completo (capacidad_cisterna : Z) (self : t) : bool :=
  (nivel_posterior self >=? capacidad_cisterna)%Z.

End Llenado.

(** ** Entity [Reporte] *)

Inductive TipoReporte :=
  | AGUA_ACABANDOSE | AGUA_CONTAMINADA | CISTERNA_DANADA | FUGA_AGUA
  | SOLICITUD_LLENADO | OTRO.

Inductive Urgencia := BAJA | MEDIA | ALTA | CRITICA.

Inductive EstadoReporte :=
  PENDIENTE | EN_REVISION | EN_PROCESO | RESUELTO | CERRADO.

#[global] Instance TipoReporte_eq_dec : EqDecision TipoReporte.
Proof. solve_decision. Defined.

#[global] Instance Urgencia_eq_dec : EqDecision Urgencia.
Proof. solve_decision. Defined.

#[global] Instance EstadoReporte_eq_dec : EqDecision EstadoReporte.
Proof. solve_decision. Defined.

Module Reporte.

Record t := mk {
  familia_id : str;
  tipo : TipoReporte;
  descripcion : str;
  urgencia : Urgencia;
  estado : EstadoReporte;
  cisterna_id : option str;
  latitud : option Q;
  longitud : option Q;
  fecha_reporte : option datetime;
  fecha_resolucion : option datetime;
  observaciones_resolucion : option str;
  id : option str
}.

Definition set_descripcion (v : str) (r : t) : t :=
  mk (familia_id r) (tipo r) v (urgencia r) (estado r) (cisterna_id r)
     (latitud r) (longitud r) (fecha_reporte r) (fecha_resolucion r)
     (observaciones_resolucion r) (id r).

Definition set_urgencia (v : Urgencia) (r : t) : t :=
  mk (familia_id r) (tipo r) (descripcion r) v (estado r) (cisterna_id r)
     (latitud r) (longitud r) (fecha_reporte r) (fecha_resolucion r)
     (observaciones_resolucion r) (id r).

Definition set_estado (v : EstadoReporte) (r : t) : t :=
  mk (familia_id r) (tipo r) (descripcion r) (urgencia r) v (cisterna_id r)
     (latitud r) (longitud r) (fecha_reporte r) (fecha_resolucion r)
     (observaciones_resolucion r) (id r).

Definition set_fecha_reporte (v : option datetime) (r : t) : t :=
  mk (familia_id r) (tipo r) (descripcion r) (urgencia r) (estado r)
     (cisterna_id r) (latitud r) (longitud r) v (fecha_resolucion r)
     (observaciones_resolucion r) (id r).

Definition set_fecha_resolucion (v : option datetime) (r : t) : t :=
  mk (familia_id r) (tipo r) (descripcion r) (urgencia r) (estado r)
     (cisterna_id r) (latitud r) (longitud r) (fecha_reporte r) v
     (observaciones_resolucion r) (id r).

Definition set_observaciones_resolucion (v : option str) (r : t) : t :=
  mk (familia_id r) (tipo r) (descripcion r) (urgencia r) (estado r)
     (cisterna_id r) (latitud r) (longitud r) (fecha_reporte r)
     (fecha_resolucion r) v (id r).

Definition set_id (v : option str) (r : t) : t :=
  mk (familia_id r) (tipo r) (descripcion r) (urgencia r) (estado r)
     (cisterna_id r) (latitud r) (longitud r) (fecha_reporte r)
     (fecha_resolucion r) (observaciones_resolucion r) v.

(** [__post_init__]; [tipo], [urgencia] and [estado] are already
    enumeration members. *)
Definition post_init (ahora : datetime) : M t unit :=
  self ← get;
  raise_if (en_blanco (familia_id self)) FamiliaIdVacio;;
  raise_if (en_blanco (descripcion self)) DescripcionVacia;;
  modificar (set_descripcion (strip (descripcion self)));;
  (if truthy_opt (observaciones_resolucion self)
   then modificar (set_observaciones_resolucion
                     (strip <$> observaciones_resolucion self))
   else mret tt);;
  (if fecha_reporte self is None
   then modificar (set_fecha_reporte (Some ahora))
   else mret tt).

(** [Reporte(...)] *)
Definition nuevo (ahora : datetime) (campos : t) : Resultado t :=
  construir (post_init ahora) campos.

Definition es_urgente (self : t) : bool :=
  bool_decide (urgencia self ∈ [ALTA; CRITICA]).

Definition esta_pendiente (self : t) : bool :=
  bool_decide (estado self = PENDIENTE).

Definition esta_resuelto (self : t) : bool :=
  bool_decide (estado self ∈ [RESUELTO; CERRADO]).

Definition cambiar_estado (ahora : datetime) (nuevo_estado : EstadoReporte)
  : M t unit :=
  modificar (set_estado nuevo_estado);;
  if bool_decide (nuevo_estado ∈ [RESUELTO; CERRADO])
  then
    self ← get;
    if fecha_resolucion self is None
    then modificar (set_fecha_resolucion (Some ahora))
    else mret tt
  else mret tt.

Definition resolver (ahora : datetime) (observaciones : str) : M t unit :=
  modificar (set_estado RESUELTO);;
  modificar (set_fecha_resolucion (Some ahora));;
  if truthy observaciones
  then modificar (set_observaciones_resolucion (Some (strip observaciones)))
  else mret tt.

Definition aumentar_urgencia : M t unit :=
  self ← get;
  match urgencia self with
  | BAJA => modificar (set_urgencia MEDIA)
  | MEDIA => modificar (set_urgencia ALTA)
  | ALTA => modificar (set_urgencia CRITICA)
  | CRITICA => mret tt
  end.

End Reporte.

(** ** Enumeration values and [Enum(value)] *)

Definition TipoCisterna_value (t : TipoCisterna) : str :=
  match t with
  | FAMILIAR => py "familiar"
  | COMUNITARIA => py "comunitaria"
  | ESCOLAR => py "escolar"
  | CENTRO_SALUD => py "centro_salud"
  end.

(** U+00F1 is the n with tilde of [dañada]. *)
Definition EstadoCisterna_value (e : EstadoCisterna) : str :=
  match e with
  | OPERATIVA => py "operativa"
  | DANADA => py "da" ++ [241%N] ++ py "ada"
  | EN_MANTENIMIENTO => py "en_mantenimiento"
  | INACTIVA => py "inactiva"
  end.

Definition TipoReporte_value (t : TipoReporte) : str :=
  match t with
  | AGUA_ACABANDOSE => py "agua_acabandose"
  | AGUA_CONTAMINADA => py "agua_contaminada"
  | CISTERNA_DANADA => py "cisterna_da" ++ [241%N] ++ py "ada"
  | FUGA_AGUA => py "fuga_agua"
  | SOLICITUD_LLENADO => py "solicitud_llenado"
  | OTRO => py "otro"
  end.

Definition Urgencia_value (u : Urgencia) : str :=
  match u with
  | BAJA => py "baja"
  | MEDIA => py "media"
  | ALTA => py "alta"
  | CRITICA => py "critica"
  end.

Definition EstadoReporte_value (e : EstadoReporte) : str :=
  match e with
  | PENDIENTE => py "pendiente"
  | EN_REVISION => py "en_revision"
  | EN_PROCESO => py "en_proceso"
  | RESUELTO => py "resuelto"
  | CERRADO => py "cerrado"
  end.

(** [E(value)]: the member whose value is [value], in definition order;
    [None] stands for the [ValueError] of a value that no member has. *)
Definition enum_de_valor {E} (miembros : list E) (valor : E → str)
  (v : str) : option E :=
  List.find (λ m, bool_decide (valor m = v)) miembros.

Definition TipoCisterna_de_valor : str → option TipoCisterna :=
  enum_de_valor [FAMILIAR; COMUNITARIA; ESCOLAR; CENTRO_SALUD]
                TipoCisterna_value.

Definition TipoReporte_de_valor : str → option TipoReporte :=
  enum_de_valor [AGUA_ACABANDOSE; AGUA_CONTAMINADA; CISTERNA_DANADA;
                 FUGA_AGUA; SOLICITUD_LLENADO; OTRO] TipoReporte_value.

Definition Urgencia_de_valor : str → option Urgencia :=
  enum_de_valor [BAJA; MEDIA; ALTA; CRITICA] Urgencia_value.

(** ** The repositories

    The four collections of the database. A collection maps the identifier
    of a document to the entity stored in it; reading a document builds the
    entity with that identifier in its [id] field (as [from_dict] does). *)

Record Mundo := mkMundo {
  db_familias : gmap str Familia.t;
  db_cisternas : gmap str Cisterna.t;
  db_llenados : gmap str Llenado.t;
  db_reportes : gmap str Reporte.t
}.

Definition set_db_familias (v : gmap str Familia.t) (w : Mundo) : Mundo :=
  mkMundo v (db_cisternas w) (db_llenados w) (db_reportes w).

Definition set_db_cisternas (v : gmap str Cisterna.t) (w : Mundo) : Mundo :=
  mkMundo (db_familias w) v (db_llenados w) (db_reportes w).

Definition set_db_llenados (v : gmap str Llenado.t) (w : Mundo) : Mundo :=
  mkMundo (db_familias w) (db_cisternas w) v (db_reportes w).

Definition set_db_reportes (v : gmap str Reporte.t) (w : Mundo) : Mundo :=
  mkMundo (db_familias w) (db_cisternas w) (db_llenados w) v.

Definition mundo_vacio : Mundo := mkMundo ∅ ∅ ∅ ∅.

(** The identifier that [insert_one] gives a new document: one that no
    document of the collection has, and never an empty string. Here, a run
    of the digit 0 longer than every identifier in use. *)
Definition nuevo_id {A} (m : gmap str A) : str :=
  replicate (S (max_list (length <$> (map_to_list m).*1))) 48%N.

(** The documents of a collection as entities. *)
Definition documentos {A} (set_id : option str → A → A) (m : gmap str A)
  : list A :=
  (λ kv, set_id (Some kv.1) kv.2) <$> map_to_list m.

(** [len(...)] as an [int]. *)
Definition len {A} (l : list A) : Z := Z.of_nat (length l).

(** [$sum] of an aggregation. *)
Definition suma (l : list Z) : Z := foldr Z.add 0%Z l.

Definition sumaQ (l : list Q) : Q := foldr Qplus 0%Q l.

(** A query that reads the database. *)
Definition consultar {S A} (f : S → A) : M S A := λ s, (Ok (f s), s).

(** An outcome computed aside (a constructor call) inside a computation. *)
Definition elevar {S A} (r : Resultado A) : M S A := λ s, (r, s).

(** A method call [o.m(...)] on a local object: the object after the call;
    an exception propagates. *)
Definition invocar {S O A} (metodo : M O A) (o : O) : M S O := λ s,
  match metodo o with
  | (Ok _, o') => (Ok o', s)
  | (Err e, _) => (Err e, s)
  end.

Module FamiliaRepository.

Definition guardar (familia : Familia.t) : M Mundo Familia.t :=
  w ← get;
  let inserted_id := nuevo_id (db_familias w) in
  let familia := Familia.set_id (Some inserted_id) familia in
  put (set_db_familias (<[inserted_id := familia]> (db_familias w)) w);;
  mret familia.

(** [update_one] changes the document with that identifier, if any. *)
Definition actualizar (familia : Familia.t) : M Mundo Familia.t :=
  raise_if (negb (truthy_opt (Familia.id familia))) EntidadSinId;;
  modificar (λ w, set_db_familias
    (alter (λ _, familia) (default [] (Familia.id familia)) (db_familias w))
    w);;
  mret familia.

Definition obtener_por_id (familia_id : str) : M Mundo (option Familia.t) :=
  consultar (λ w,
    Familia.set_id (Some familia_id) <$> db_familias w !! familia_id).

Definition todas (w : Mundo) : list Familia.t :=
  documentos Familia.set_id (db_familias w).

Definition obtener_activas : M Mundo (list Familia.t) :=
  consultar (λ w, List.filter Familia.activo (todas w)).

Definition obtener_con_cisterna : M Mundo (list Familia.t) :=
  consultar (λ w, List.filter Familia.tiene_cisterna (todas w)).

Definition obtener_sin_cisterna : M Mundo (list Familia.t) :=
  consultar (λ w,
    List.filter (λ f, negb (Familia.tiene_cisterna f)) (todas w)).

(** [find_one] by contact: a document with that contact, if there is one. *)
Definition buscar_por_contacto (contacto : str)
  : M Mundo (option Familia.t) :=
  consultar (λ w,
    List.find (λ f, bool_decide (Familia.contacto f = contacto)) (todas w)).

Definition contar_familias : M Mundo Z :=
  consultar (λ w, len (todas w)).

End FamiliaRepository.

Module CisternaRepository.

Definition guardar (cisterna : Cisterna.t) : M Mundo Cisterna.t :=
  w ← get;
  let inserted_id := nuevo_id (db_cisternas w) in
  let cisterna := Cisterna.set_id (Some inserted_id) cisterna in
  put (set_db_cisternas (<[inserted_id := cisterna]> (db_cisternas w)) w);;
  mret cisterna.

Definition actualizar (cisterna : Cisterna.t) : M Mundo Cisterna.t :=
  raise_if (negb (truthy_opt (Cisterna.id cisterna))) EntidadSinId;;
  modificar (λ w, set_db_cisternas
    (alter (λ _, cisterna) (default [] (Cisterna.id cisterna))
           (db_cisternas w))
    w);;
  mret cisterna.

Definition obtener_por_id (cisterna_id : str)
  : M Mundo (option Cisterna.t) :=
  consultar (λ w,
    Cisterna.set_id (Some cisterna_id) <$> db_cisternas w !! cisterna_id).

Definition todas (w : Mundo) : list Cisterna.t :=
  documentos Cisterna.set_id (db_cisternas w).

Definition operativas (w : Mundo) : list Cisterna.t :=
  List.filter
    (λ c, bool_decide (EstadoCisterna_value (Cisterna.estado c)
                       = EstadoCisterna_value OPERATIVA))
    (todas w).

Definition obtener_operativas : M Mundo (list Cisterna.t) :=
  consultar operativas.

Definition obtener_con_nivel_critico (porcentaje : Q)
  : M Mundo (list Cisterna.t) :=
  consultar (λ w,
    List.filter (Cisterna.nivel_critico porcentaje) (operativas w)).

Definition obtener_con_nivel_bajo (porcentaje : Q)
  : M Mundo (list Cisterna.t) :=
  consultar (λ w, List.filter (Cisterna.nivel_bajo porcentaje) (operativas w)).

Definition obtener_vacias : M Mundo (list Cisterna.t) :=
  consultar (λ w,
    List.filter (λ c, (Cisterna.nivel_actual c =? 0)%Z) (todas w)).

Definition obtener_prioritarias : M Mundo (list Cisterna.t) :=
  consultar (λ w,
    List.filter
      (λ c, bool_decide (TipoCisterna_value (Cisterna.tipo c)
               ∈ [TipoCisterna_value ESCOLAR;
                  TipoCisterna_value CENTRO_SALUD]))
      (todas w)).

Definition contar_cisternas : M Mundo Z :=
  consultar (λ w, len (todas w)).

Definition calcular_capacidad_total : M Mundo Z :=
  consultar (λ w, suma (Cisterna.capacidad_total <$> todas w)).

Definition calcular_nivel_total : M Mundo Z :=
  consultar (λ w, suma (Cisterna.nivel_actual <$> todas w)).

(** [delete_one]: whether a document was deleted. *)
Definition eliminar (cisterna_id : str) : M Mundo bool :=
  w ← get;
  let deleted_count :=
    if db_cisternas w !! cisterna_id is Some _ then 1%Z else 0%Z in
  put (set_db_cisternas (delete cisterna_id (db_cisternas w)) w);;
  mret (deleted_count >? 0)%Z.

End CisternaRepository.

Module LlenadoRepository.

Definition guardar (llenado : Llenado.t) : M Mundo Llenado.t :=
  w ← get;
  let inserted_id := nuevo_id (db_llenados w) in
  let llenado := Llenado.set_id (Some inserted_id) llenado in
  put (set_db_llenados (<[inserted_id := llenado]> (db_llenados w)) w);;
  mret llenado.

Definition todos (w : Mundo) : list Llenado.t :=
  documentos Llenado.set_id (db_llenados w).

Definition contar_llenados : M Mundo Z :=
  consultar (λ w, len (todos w)).

Definition calcular_total_litros : M Mundo Z :=
  consultar (λ w, suma (Llenado.litros_suministrados <$> todos w)).

Definition calcular_total_costo : M Mundo Q :=
  consultar (λ w, sumaQ (Llenado.costo <$> todos w)).

Definition calcular_costo_promedio_por_litro : M Mundo Q :=
  total_costo ← calcular_total_costo;
  total_litros ← calcular_total_litros;
  mret (if (total_litros >? 0)%Z
        then (total_costo / inject_Z total_litros)%Q else 0%Q).

End LlenadoRepository.

Module ReporteRepository.

Definition guardar (reporte : Reporte.t) : M Mundo Reporte.t :=
  w ← get;
  let inserted_id := nuevo_id (db_reportes w) in
  let reporte := Reporte.set_id (Some inserted_id) reporte in
  put (set_db_reportes (<[inserted_id := reporte]> (db_reportes w)) w);;
  mret reporte.

Definition todos (w : Mundo) : list Reporte.t :=
  documentos Reporte.set_id (db_reportes w).

Definition contar_reportes : M Mundo Z :=
  consultar (λ w, len (todos w)).

Definition contar_por_estado (estado : EstadoReporte) : M Mundo Z :=
  consultar (λ w, len (List.filter
    (λ r, bool_decide (EstadoReporte_value (Reporte.estado r)
                       = EstadoReporte_value estado))
    (todos w))).

(** The query of [obtener_urgentes] and [contar_urgentes]. *)
Definition filtro_urgentes (r : Reporte.t) : bool :=
  bool_decide (Urgencia_value (Reporte.urgencia r)
     ∈ [Urgencia_value ALTA; Urgencia_value CRITICA])
  && bool_decide (EstadoReporte_value (Reporte.estado r)
     ∈ [EstadoReporte_value PENDIENTE; EstadoReporte_value EN_REVISION]).

Definition contar_urgentes : M Mundo Z :=
  consultar (λ w, len (List.filter filtro_urgentes (todos w))).

Definition obtener_por_id (reporte_id : str) : M Mundo (option Reporte.t) :=
  consultar (λ w,
    Reporte.set_id (Some reporte_id) <$> db_reportes w !! reporte_id).

Definition actualizar (reporte : Reporte.t) : M Mundo Reporte.t :=
  raise_if (negb (truthy_opt (Reporte.id reporte))) EntidadSinId;;
  modificar (λ w, set_db_reportes
    (alter (λ _, reporte) (default [] (Reporte.id reporte)) (db_reportes w))
    w);;
  mret reporte.

End ReporteRepository.

(** ** Use cases *)

Module RegistrarFamilia.

Definition ejecutar (ahora : datetime)
  (direccion : str) (num_personas : Z) (contacto : str)
  (capacidad_almacenamiento : Z) (tiene_cisterna : bool) (zona : str)
  (consumo_promedio_diario : option Q) : M Mundo Familia.t :=
  (* 1. the contact must not exist *)
  familia_existente ← FamiliaRepository.buscar_por_contacto contacto;
  (if familia_existente is Some _
   then raise (ValueError ContactoYaRegistrado) else mret tt);;
  (* 2. the entity, validated by its constructor *)
  familia ← elevar (Familia.nueva ahora
    (Familia.mk direccion num_personas contacto capacidad_almacenamiento
                tiene_cisterna zona consumo_promedio_diario None None true));
  (* 3. save *)
  FamiliaRepository.guardar familia.

End RegistrarFamilia.

Module RegistrarCisterna.

Definition ejecutar (ahora_instalacion ahora_actualizacion : datetime)
  (ubicacion tipo : str) (capacidad_total nivel_actual : Z)
  (latitud longitud : option Q) (familia_id : option str)
  : M Mundo Cisterna.t :=
  (* 1. the category *)
  tipo_cisterna ←
    (if TipoCisterna_de_valor tipo is Some t then mret t
     else raise (ValueError TipoCisternaInvalido));
  (* 2. a family tank: the household must exist *)
  (if bool_decide (tipo_cisterna = FAMILIAR) && truthy_opt familia_id
   then
     familia ← FamiliaRepository.obtener_por_id (default [] familia_id);
     match familia with
     | None => raise (ValueError FamiliaNoEncontrada)
     | Some familia =>
         if negb (Familia.tiene_cisterna familia)
         then
           let familia := Familia.set_tiene_cisterna true familia in
           FamiliaRepository.actualizar familia;; mret tt
         else mret tt
     end
   else mret tt);;
  (* 3. the entity *)
  cisterna ← elevar (Cisterna.nueva ahora_instalacion ahora_actualizacion
    (Cisterna.mk ubicacion tipo_cisterna capacidad_total nivel_actual
                 latitud longitud familia_id OPERATIVA None None None));
  (* 4. save *)
  CisternaRepository.guardar cisterna.

End RegistrarCisterna.

Module RegistrarLlenado.

Definition ejecutar (ahora_llenar ahora_llenado : datetime)
  (cisterna_id : str) (litros_suministrados : Z) (costo : Q)
  (proveedor : str) (observaciones : option str) : M Mundo Llenado.t :=
  (* 1. the tank *)
  cisterna ← CisternaRepository.obtener_por_id cisterna_id;
  match cisterna with
  | None => raise (ValueError CisternaNoEncontrada)
  | Some cisterna =>
      (* 2. it must be operational *)
      raise_if
        (negb (bool_decide (EstadoCisterna_value (Cisterna.estado cisterna)
                            = py "operativa")))
        CisternaNoOperativa;;
      (* 3. the level before *)
      let nivel_anterior := Cisterna.nivel_actual cisterna in
      (* 4. fill the tank *)
      cisterna ← invocar (Cisterna.llenar ahora_llenar litros_suministrados)
                         cisterna;
      let nivel_posterior := Cisterna.nivel_actual cisterna in
      (* 5. the refill record *)
      llenado ← elevar (Llenado.nuevo ahora_llenado
        (Llenado.mk cisterna_id litros_suministrados costo proveedor
                    nivel_anterior nivel_posterior None observaciones None));
      (* 6. save the record *)
      llenado_guardado ← LlenadoRepository.guardar llenado;
      (* 7. update the tank *)
      CisternaRepository.actualizar cisterna;;
      mret llenado_guardado
  end.

End RegistrarLlenado.

Module CrearReporte.

Definition ejecutar (ahora : datetime)
  (familia_id tipo descripcion urgencia : str) (cisterna_id : option str)
  (latitud longitud : option Q) : M Mundo Reporte.t :=
  (* 1. the household *)
  familia ← FamiliaRepository.obtener_por_id familia_id;
  (if familia is None
   then raise (ValueError FamiliaNoEncontrada) else mret tt);;
  (* 2. the category *)
  tipo_reporte ←
    (if TipoReporte_de_valor tipo is Some t then mret t
     else raise (ValueError TipoReporteInvalido));
  (* 3. the urgency *)
  nivel_urgencia ←
    (if Urgencia_de_valor urgencia is Some u then mret u
     else raise (ValueError UrgenciaInvalida));
  (* 4. the tank, when one is given *)
  (if truthy_opt cisterna_id
   then
     cisterna ← CisternaRepository.obtener_por_id (default [] cisterna_id);
     if cisterna is None
     then raise (ValueError CisternaNoEncontrada) else mret tt
   else mret tt);;
  (* 5. the urgency follows the category *)
  let nivel_urgencia :=
    if bool_decide (tipo_reporte = AGUA_ACABANDOSE)
    then (if bool_decide (nivel_urgencia = BAJA) then MEDIA
          else nivel_urgencia)
    else nivel_urgencia in
  (* 6. the entity *)
  reporte ← elevar (Reporte.nuevo ahora
    (Reporte.mk familia_id tipo_reporte descripcion nivel_urgencia PENDIENTE
                cisterna_id latitud longitud None None None None));
  (* 7. save *)
  ReporteRepository.guardar reporte.

End CrearReporte.

Module ObtenerDashboard.

(** One entry of ['alertas']: the keys ['tipo'], ['mensaje'], ['cantidad']. *)
Record Alerta := mkAlerta {
  tipo : str;
  mensaje : str;
  cantidad : Z
}.

(** The returned dictionary; a field [a_b] is the key ['b'] of section
    ['a']. *)
Record t := mk {
  familias_total : Z;
  familias_activas : Z;
  familias_con_cisterna : Z;
  familias_sin_cisterna : Z;
  cisternas_total : Z;
  cisternas_operativas : Z;
  cisternas_vacias : Z;
  cisternas_nivel_critico : Z;
  cisternas_nivel_bajo : Z;
  cisternas_prioritarias : Z;
  cisternas_capacidad_total_litros : Z;
  cisternas_nivel_total_litros : Z;
  cisternas_porcentaje_lleno : Q;
  llenados_total : Z;
  llenados_litros_suministrados : Z;
  llenados_costo_total_bs : Q;
  llenados_costo_promedio_litro_bs : Q;
  reportes_total : Z;
  reportes_pendientes : Z;
  reportes_urgentes : Z;
  alertas : list Alerta
}.

(** [round(x, 2)] on an exact rational: the nearest multiple of 1/100, a
    tie going to the even one. *)
Definition round2 (x : Q) : Q :=
  let y := (x * 100)%Q in
  let f := Qfloor y in
  let resto := (y - inject_Z f)%Q in
  let n :=
    match (resto ?= 1 # 2)%Q with
    | Lt => f
    | Gt => (f + 1)%Z
    | Eq => if Z.even f then f else (f + 1)%Z
    end in
  (inject_Z n / 100)%Q.

(** [alertas.append(x)] *)
Definition append {A} (x : A) (l : list A) : list A := l ++ [x].

(** U+00ED is the accented i of [vacía] and [crítico]. *)
Definition mensaje_vacias (n : Z) : str :=
  str_of_int n ++ py " cisterna(s) vac" ++ [237%N] ++ py "a(s)".

Definition mensaje_nivel_critico (n : Z) : str :=
  str_of_int n ++ py " cisterna(s) con nivel cr" ++ [237%N] ++ py "tico".

Definition mensaje_urgentes (n : Z) : str :=
  str_of_int n ++ py " reporte(s) urgente(s) pendiente(s)".

Definition mensaje_nivel_bajo (n : Z) : str :=
  str_of_int n ++ py " cisterna(s) con nivel bajo".

Definition ejecutar : M Mundo t :=
  (* households *)
  total_familias ← FamiliaRepository.contar_familias;
  familias_activas ← len <$> FamiliaRepository.obtener_activas;
  familias_con_cisterna ← len <$> FamiliaRepository.obtener_con_cisterna;
  familias_sin_cisterna ← len <$> FamiliaRepository.obtener_sin_cisterna;
  (* tanks *)
  total_cisternas ← CisternaRepository.contar_cisternas;
  cisternas_operativas ← len <$> CisternaRepository.obtener_operativas;
  cisternas_vacias ← len <$> CisternaRepository.obtener_vacias;
  cisternas_nivel_critico ←
    len <$> CisternaRepository.obtener_con_nivel_critico 20;
  cisternas_nivel_bajo ← len <$> CisternaRepository.obtener_con_nivel_bajo 40;
  cisternas_prioritarias ← len <$> CisternaRepository.obtener_prioritarias;
  capacidad_total ← CisternaRepository.calcular_capacidad_total;
  nivel_total ← CisternaRepository.calcular_nivel_total;
  let porcentaje_lleno :=
    if (capacidad_total >? 0)%Z
    then (inject_Z nivel_total / inject_Z capacidad_total * 100)%Q
    else 0%Q in
  (* refills *)
  total_llenados ← LlenadoRepository.contar_llenados;
  total_litros_suministrados ← LlenadoRepository.calcular_total_litros;
  total_costo_llenados ← LlenadoRepository.calcular_total_costo;
  costo_promedio_litro ← LlenadoRepository.calcular_costo_promedio_por_litro;
  (* reports *)
  total_reportes ← ReporteRepository.contar_reportes;
  reportes_pendientes ← ReporteRepository.contar_por_estado PENDIENTE;
  reportes_urgentes ← ReporteRepository.contar_urgentes;
  (* alerts *)
  let alertas := [] in
  let alertas :=
    if (cisternas_vacias >? 0)%Z
    then append (mkAlerta (py "critico") (mensaje_vacias cisternas_vacias)
                          cisternas_vacias) alertas
    else alertas in
  let alertas :=
    if (cisternas_nivel_critico >? 0)%Z
    then append (mkAlerta (py "urgente")
                   (mensaje_nivel_critico cisternas_nivel_critico)
                   cisternas_nivel_critico) alertas
    else alertas in
  let alertas :=
    if (reportes_urgentes >? 0)%Z
    then append (mkAlerta (py "urgente") (mensaje_urgentes reportes_urgentes)
                          reportes_urgentes) alertas
    else alertas in
  let alertas :=
    if (cisternas_nivel_bajo >? 0)%Z
    then append (mkAlerta (py "advertencia")
                   (mensaje_nivel_bajo cisternas_nivel_bajo)
                   cisternas_nivel_bajo) alertas
    else alertas in
  mret (mk total_familias familias_activas familias_con_cisterna
           familias_sin_cisterna
           total_cisternas cisternas_operativas cisternas_vacias
           cisternas_nivel_critico cisternas_nivel_bajo
           cisternas_prioritarias capacidad_total nivel_total
           (round2 porcentaje_lleno)
           total_llenados total_litros_suministrados
           (round2 total_costo_llenados) (round2 costo_promedio_litro)
           total_reportes reportes_pendientes reportes_urgentes
           alertas).

End ObtenerDashboard.

(** ** Routes

    The endpoint [PATCH /{reporte_id}/resolver] of [reporte_routes]: the
    outcome is the exception that reaches the framework, or the report that
    the response describes. *)

Inductive HTTPException := HTTP (status_code : Z).

Module ReporteRoutes.

Definition resolver_reporte (ahora : datetime) (reporte_id : str)
  (observaciones : option str) (w : Mundo)
  : (HTTPException + Reporte.t) * Mundo :=
  let cuerpo : M Mundo (HTTPException + Reporte.t) :=
    reporte ← ReporteRepository.obtener_por_id reporte_id;
    match reporte with
    | None => mret (inl (HTTP 404))
    | Some reporte =>
        (* [observaciones or ""] *)
        reporte ← invocar
          (Reporte.resolver ahora
             (if truthy_opt observaciones then default [] observaciones
              else []))
          reporte;
        ReporteRepository.actualizar reporte;;
        mret (inr reporte)
    end in
  match cuerpo w with
  | (Ok r, w') => (r, w')
  | (Err _, w') => (inl (HTTP 500), w')
  end.

End ReporteRoutes.

(** ** Histories of a tank

    A tank that is filled and drawn from over time: each operation is one
    call of [llenar] or [consumir], and the tank carries on from the state
    the call left, whether the call returned or raised. *)

Inductive Operacion :=
  | Llenar (ahora : datetime) (litros : Z)
  | Consumir (ahora : datetime) (litros : Z).

Definition metodo (op : Operacion) : M Cisterna.t unit :=
  match op with
  | Llenar ahora litros => Cisterna.llenar ahora litros
  | Consumir ahora litros => Cisterna.consumir ahora litros
  end.

Definition aplicar (c : Cisterna.t) (op : Operacion) : Cisterna.t :=
  (metodo op c).2.

Definition historia (ops : list Operacion) (c : Cisterna.t) : Cisterna.t :=
  foldl aplicar c ops.

(** The bounds that [Cisterna.__post_init__] checks. *)
Definition en_rango (c : Cisterna.t) : Prop :=
  (0 < Cisterna.capacidad_total c
   ∧ 0 ≤ Cisterna.nivel_actual c ≤ Cisterna.capacidad_total c)%Z.

(** ** Histories of a report

    The operations that change a report over time, applied one after the
    other. *)

Inductive OperacionReporte :=
  | CambiarEstado (ahora : datetime) (nuevo_estado : EstadoReporte)
  | Resolver (ahora : datetime) (observaciones : str)
  | AumentarUrgencia.

Definition metodo_reporte (op : OperacionReporte) : M Reporte.t unit :=
  match op with
  | CambiarEstado ahora e => Reporte.cambiar_estado ahora e
  | Resolver ahora observaciones => Reporte.resolver ahora observaciones
  | AumentarUrgencia => Reporte.aumentar_urgencia
  end.

Definition historia_reporte (ops : list OperacionReporte) (r : Reporte.t)
  : Reporte.t :=
  foldl (λ r op, (metodo_reporte op r).2) r ops.

(** Whether an operation is a call of [cambiar_estado] or of
    [aumentar_urgencia], that is, not a call of [resolver]. *)
Definition sin_resolver (op : OperacionReporte) : bool :=
  match op with Resolver _ _ => false | _ => true end.

(** ** Conditions on the stored households *)

(** No two stored households have the same contact. *)
Definition contactos_unicos (m : gmap str Familia.t) : Prop :=
  ∀ k1 k2 f1 f2,
    m !! k1 = Some f1 → m !! k2 = Some f2 →
    Familia.contacto f1 = Familia.contacto f2 → k1 = k2.

(** ** What a refill leaves

    The refill record that [RegistrarLlenado] builds for a tank [c] stored
    under [cid], and the tank as it stores it again. *)
Definition llenado_de (w : Mundo) (a2 : datetime) (cid : str)
  (c : Cisterna.t) (x : Z) (costo : Q) (proveedor : str)
  (observaciones : option str) : Llenado.t :=
  Llenado.mk cid x costo (strip proveedor) (Cisterna.nivel_actual c)
    (Z.min (Cisterna.nivel_actual c + x) (Cisterna.capacidad_total c))
    (Some a2)
    (if truthy_opt observaciones then strip <$> observaciones
     else observaciones)
    (Some (nuevo_id (db_llenados w))).

Definition cisterna_llena_de (a1 : datetime) (cid : str) (c : Cisterna.t)
  (x : Z) : Cisterna.t :=
  Cisterna.set_ultima_actualizacion (Some a1)
    (Cisterna.set_nivel_actual
       (Z.min (Cisterna.nivel_actual c + x) (Cisterna.capacidad_total c))
       (Cisterna.set_id (Some cid) c)).

(** ** The alerts of the dashboard *)

(** The four alerts, each with its severity, message and count, in the
    order in which the dashboard lists them. *)
Definition alertas_posibles (d : ObtenerDashboard.t)
  : list ObtenerDashboard.Alerta :=
  [ ObtenerDashboard.mkAlerta (py "critico")
      (ObtenerDashboard.mensaje_vacias (ObtenerDashboard.cisternas_vacias d))
      (ObtenerDashboard.cisternas_vacias d);
    ObtenerDashboard.mkAlerta (py "urgente")
      (ObtenerDashboard.mensaje_nivel_critico
         (ObtenerDashboard.cisternas_nivel_critico d))
      (ObtenerDashboard.cisternas_nivel_critico d);
    ObtenerDashboard.mkAlerta (py "urgente")
      (ObtenerDashboard.mensaje_urgentes
         (ObtenerDashboard.reportes_urgentes d))
      (ObtenerDashboard.reportes_urgentes d);
    ObtenerDashboard.mkAlerta (py "advertencia")
      (ObtenerDashboard.mensaje_nivel_bajo
         (ObtenerDashboard.cisternas_nivel_bajo d))
      (ObtenerDashboard.cisternas_nivel_bajo d) ].

(** ** Worked examples *)

(** The tank of the worked example: 1000 litres of capacity, 800 in it. *)
Definition cisterna_ejemplo : Cisterna.t :=
  Cisterna.mk (py "Plaza 14 de Septiembre") COMUNITARIA 1000 800 None None
              None OPERATIVA None None None.

(** The same tank as a stored document. *)
Definition cisterna_guardada : Cisterna.t :=
  Cisterna.mk (py "Plaza 14 de Septiembre") COMUNITARIA 1000 800 None None
              None OPERATIVA (Some (py "c1")) (Some 1%Z) (Some 2%Z).

(** A stored household without a tank of its own. *)
Definition familia_guardada : Familia.t :=
  Familia.mk (py "Calle Innominada 12") 4 (py "70712345") 500 false
             (py "Villa Pagador") (Some 200%Q) (Some (py "f1")) (Some 1%Z)
             true.

(** A database with that household and that tank. *)
Definition mundo_ejemplo : Mundo :=
  mkMundo {[ py "f1" := familia_guardada ]} {[ py "c1" := cisterna_guardada ]}
          ∅ ∅.

(** A report that was resolved at time 100. *)
Definition reporte_resuelto : Reporte.t :=
  Reporte.mk (py "f1") FUGA_AGUA (py "Fuga en la tuberia principal") ALTA
             RESUELTO None None None (Some 40%Z) (Some 100%Z) None
             (Some (py "r1")).

(** A household whose zone is three spaces; every other field is valid. *)
Definition familia_sin_zona : Familia.t :=
  Familia.mk (py "Av. Petrolera km 4") 4 (py "70712345") 500 false (py "   ")
             None None None true.

(** * Properties *)

(** Unfolds the plumbing of [M]. *)
Ltac desplegar :=
  unfold mbind, mret, fmap, M_bind, M_ret, M_fmap, raise_if, raise, get, put,
    modificar, consultar, elevar, invocar, construir in *.

(** ** Strings *)

Lemma en_blanco_false_truthy (s : str) : en_blanco s = false → truthy s = true.
Proof.
  unfold en_blanco. intros H. apply orb_false_elim in H as [H _].
  by apply negb_false_iff in H.
Qed.

Lemma truthy_no_vacia (s : str) : truthy s = true ↔ s ≠ [].
Proof. destruct s; simpl; split; congruence. Qed.

(** ** [Cisterna] *)

Section cisterna.
Local Open Scope Z_scope.
Import Cisterna.

Lemma llenar_eq ahora litros c :
  llenar ahora litros c =
    if litros <=? 0 then (Err (ValueError CantidadInvalida), c)
    else (Ok tt,
          set_ultima_actualizacion (Some ahora)
            (set_nivel_actual
               (Z.min (nivel_actual c + litros) (capacidad_total c)) c)).
Proof.
  unfold llenar. desplegar. destruct (litros <=? 0) eqn:E; [done|].
  cbn. destruct (_ >? _) eqn:G; cbn; do 3 f_equal.
  - apply Z.gtb_gt in G. lia.
  - rewrite Z.gtb_ltb in G. apply Z.ltb_ge in G. lia.
Qed.

Lemma consumir_eq ahora litros c :
  consumir ahora litros c =
    if litros <=? 0 then (Err (ValueError CantidadInvalida), c)
    else if litros >? nivel_actual c
    then (Err (ValueError AguaInsuficiente), c)
    else (Ok tt,
          set_ultima_actualizacion (Some ahora)
            (set_nivel_actual (nivel_actual c - litros) c)).
Proof.
  unfold consumir. desplegar. destruct (litros <=? 0) eqn:E; [done|].
  cbn. by destruct (_ >? _) eqn:G.
Qed.

Lemma nueva_en_rango a1 a2 campos c :
  nueva a1 a2 campos = Ok c → en_rango c.
Proof.
  unfold nueva, post_init, en_rango. desplegar. cbn.
  destruct (en_blanco _); [done|].
  destruct (capacidad_total campos <=? 0) eqn:E1; [done|].
  destruct (nivel_actual campos <? 0) eqn:E2; [done|].
  destruct (nivel_actual campos >? capacidad_total campos) eqn:E3; [done|].
  apply Z.leb_gt in E1. apply Z.ltb_ge in E2.
  rewrite Z.gtb_ltb in E3. apply Z.ltb_ge in E3.
  destruct (fecha_instalacion campos), (ultima_actualizacion campos);
    cbn; intros [= <-]; cbn; lia.
Qed.

Lemma aplicar_en_rango c op : en_rango c → en_rango (aplicar c op).
Proof.
  unfold en_rango, aplicar. intros H.
  destruct op as [ahora litros|ahora litros]; cbn [metodo].
  - rewrite llenar_eq. destruct (litros <=? 0) eqn:E; [done|].
    apply Z.leb_gt in E. cbn. lia.
  - rewrite consumir_eq. destruct (litros <=? 0) eqn:E; [done|].
    destruct (litros >? nivel_actual c) eqn:G; [done|].
    apply Z.leb_gt in E. rewrite Z.gtb_ltb in G. apply Z.ltb_ge in G.
    cbn. lia.
Qed.

Lemma historia_en_rango ops c : en_rango c → en_rango (historia ops c).
Proof.
  unfold historia. revert c.
  induction ops as [|op ops IH]; intros c H; cbn; [done|].
  by apply IH, aplicar_en_rango.
Qed.

(** C5. [llenar(x)] raises exactly when [x <= 0]; for [x > 0] it returns
    and leaves the level at [min(level + x, capacity)], which is the
    capacity itself whenever [x > capacity - level]. This holds for every
    tank, in particular for every valid one. *)
Theorem C5_llenar_clamps ahora (x : Z) (c : t) :
  (es_ok (llenar ahora x c).1 = false ↔ x ≤ 0)
  ∧ (0 < x →
     (llenar ahora x c).1 = Ok tt
     ∧ nivel_actual (llenar ahora x c).2
       = Z.min (nivel_actual c + x) (capacidad_total c)
     ∧ (x > capacidad_total c - nivel_actual c →
        nivel_actual (llenar ahora x c).2 = capacidad_total c)).
Proof.
  rewrite llenar_eq. destruct (x <=? 0) eqn:E.
  - apply Z.leb_le in E. cbn. split; [done|lia].
  - apply Z.leb_gt in E. cbn. split; [split; [done|lia]|].
    intros _. repeat split. lia.
Qed.

(** C6. [consumir(x)] raises exactly when [x <= 0] or [x] exceeds the
    level; a call that raises leaves the tank, and so its level, as it
    was; a call that returns lowers the level by exactly [x]. *)
Theorem C6_consumir_guarded ahora (x : Z) (c : t) :
  (es_ok (consumir ahora x c).1 = false ↔ x ≤ 0 ∨ x > nivel_actual c)
  ∧ (es_ok (consumir ahora x c).1 = false →
     (consumir ahora x c).2 = c
     ∧ nivel_actual (consumir ahora x c).2 = nivel_actual c)
  ∧ (es_ok (consumir ahora x c).1 = true →
     nivel_actual (consumir ahora x c).2 = nivel_actual c - x).
Proof.
  rewrite consumir_eq. destruct (x <=? 0) eqn:E.
  - apply Z.leb_le in E. cbn. repeat split; auto; done.
  - apply Z.leb_gt in E. destruct (x >? nivel_actual c) eqn:G.
    + apply Z.gtb_gt in G. cbn. repeat split; auto; done.
    + rewrite Z.gtb_ltb in G. apply Z.ltb_ge in G. cbn.
      repeat split; try done. intros [?|?]; lia.
Qed.

(** C2. A tank that came out of the validating constructor keeps
    [0 <= level <= capacity] after every sequence of [llenar] and
    [consumir] calls, whichever of them returned or raised. *)
Theorem C2_nivel_en_rango a1 a2 (campos c : t) (ops : list Operacion) :
  nueva a1 a2 campos = Ok c →
  0 ≤ nivel_actual (historia ops c)
      ≤ capacidad_total (historia ops c).
Proof.
  intros H. apply nueva_en_rango in H.
  by destruct (historia_en_rango ops c H) as [_ ?].
Qed.

End cisterna.

Lemma C5_llenar_clamps_witness :
  (0 < 500)%Z
  ∧ (500 > 1000 - 800)%Z
  ∧ Cisterna.nivel_actual (Cisterna.llenar 7%Z 500 cisterna_ejemplo).2
    = 1000%Z.
Proof.
  destruct (C5_llenar_clamps 7%Z 500 cisterna_ejemplo) as [_ H].
  assert (H0 : (0 < 500)%Z) by lia.
  destruct (H H0) as (_ & _ & H3).
  split; [exact H0|]. split; [lia|]. apply H3. simpl. lia.
Defined.

Lemma C6_consumir_guarded_witness :
  es_ok (Cisterna.consumir 7%Z 900 cisterna_ejemplo).1 = false
  ∧ Cisterna.nivel_actual (Cisterna.consumir 7%Z 900 cisterna_ejemplo).2
    = 800%Z
  ∧ es_ok (Cisterna.consumir 7%Z 300 cisterna_ejemplo).1 = true
  ∧ Cisterna.nivel_actual (Cisterna.consumir 7%Z 300 cisterna_ejemplo).2
    = 500%Z.
Proof.
  destruct (C6_consumir_guarded 7%Z 900 cisterna_ejemplo) as (_ & H1 & _).
  destruct (C6_consumir_guarded 7%Z 300 cisterna_ejemplo) as (_ & _ & H2).
  assert (E1 : es_ok (Cisterna.consumir 7%Z 900 cisterna_ejemplo).1 = false)
    by reflexivity.
  assert (E2 : es_ok (Cisterna.consumir 7%Z 300 cisterna_ejemplo).1 = true)
    by reflexivity.
  split; [exact E1|]. split; [exact (proj2 (H1 E1))|].
  split; [exact E2|]. exact (H2 E2).
Defined.

Lemma C2_nivel_en_rango_witness :
  let c := Cisterna.set_ultima_actualizacion (Some 2%Z)
             (Cisterna.set_fecha_instalacion (Some 1%Z) cisterna_ejemplo) in
  let ops := [Llenar 3%Z 500; Consumir 4%Z 2000; Consumir 5%Z 300;
              Llenar 6%Z (-4)] in
  Cisterna.nueva 1%Z 2%Z cisterna_ejemplo = Ok c
  ∧ (0 ≤ Cisterna.nivel_actual (historia ops c)
       ≤ Cisterna.capacidad_total (historia ops c))%Z.
Proof.
  intros c ops.
  assert (H : Cisterna.nueva 1%Z 2%Z cisterna_ejemplo = Ok c) by reflexivity.
  split; [exact H|].
  exact (C2_nivel_en_rango 1%Z 2%Z cisterna_ejemplo c ops H).
Defined.

(** ** [Reporte] *)

(** [cambiar_estado] keeps a resolution time that is already there. *)
Lemma cambiar_estado_conserva ahora nuevo_estado (r : Reporte.t) t0 :
  Reporte.fecha_resolucion r = Some t0 →
  Reporte.fecha_resolucion (Reporte.cambiar_estado ahora nuevo_estado r).2
  = Some t0.
Proof.
  intros H. unfold Reporte.cambiar_estado. desplegar. cbn.
  case_bool_decide; cbn; [|done]. by rewrite H.
Qed.

(** [cambiar_estado] stamps the first entry into resolved or closed. *)
Lemma cambiar_estado_primera ahora nuevo_estado (r : Reporte.t) :
  Reporte.fecha_resolucion r = None →
  nuevo_estado ∈ [RESUELTO; CERRADO] →
  Reporte.fecha_resolucion (Reporte.cambiar_estado ahora nuevo_estado r).2
  = Some ahora.
Proof.
  intros H Hin. unfold Reporte.cambiar_estado. desplegar. cbn.
  case_bool_decide; [|done]. cbn. by rewrite H.
Qed.

(** [resolver] stamps the time of the call, whatever was there. *)
Lemma resolver_fecha ahora observaciones (r : Reporte.t) :
  Reporte.fecha_resolucion (Reporte.resolver ahora observaciones r).2
  = Some ahora.
Proof.
  unfold Reporte.resolver. desplegar. cbn. by destruct (truthy _).
Qed.

(** C3, as the code behaves: on a report resolved at time 100, a later
    [cambiar_estado] into resolved or closed keeps the time 100, but
    [resolver] called at time 250 replaces it by 250. *)
Theorem C3_resolver_restamps :
  Reporte.fecha_resolucion reporte_resuelto = Some 100%Z
  ∧ Reporte.fecha_resolucion
      (Reporte.cambiar_estado 250%Z CERRADO reporte_resuelto).2 = Some 100%Z
  ∧ Reporte.fecha_resolucion
      (Reporte.cambiar_estado 250%Z RESUELTO reporte_resuelto).2 = Some 100%Z
  ∧ Reporte.fecha_resolucion
      (Reporte.resolver 250%Z (py "Reparado") reporte_resuelto).2
    = Some 250%Z
  ∧ Reporte.fecha_resolucion
      (Reporte.resolver 250%Z (py "Reparado") reporte_resuelto).2
    ≠ Reporte.fecha_resolucion reporte_resuelto.
Proof. repeat split; done. Qed.

(** ** [Familia] *)

(** The zone takes no part in the validation: the constructor raises for
    one zone exactly when it raises for any other. *)
Lemma nueva_ignora_zona ahora (zona : str) (campos : Familia.t) :
  es_ok (Familia.nueva ahora (Familia.set_zona zona campos))
  = es_ok (Familia.nueva ahora campos).
Proof.
  unfold Familia.nueva, Familia.post_init. desplegar. cbn.
  destruct (en_blanco (Familia.direccion campos)); [done|].
  destruct (_ <=? _)%Z; [done|]. destruct (_ <=? _)%Z; [done|].
  destruct (en_blanco (Familia.contacto campos)); [done|].
  by destruct (Familia.fecha_registro campos),
       (Familia.consumo_promedio_diario campos).
Qed.

(** C4, as the code behaves: a household whose zone is blank, and whose
    other fields are valid, is constructed without error, with the empty
    string as its zone. *)
Theorem C4_zona_en_blanco_aceptada :
  en_blanco (Familia.zona familia_sin_zona) = true
  ∧ ∃ f, Familia.nueva 1%Z familia_sin_zona = Ok f
         ∧ Familia.zona f = []
         ∧ Familia.consumo_promedio_diario f = Some 200%Q.
Proof. split; [done|]. eexists. by repeat split. Qed.

(** ** The repositories *)

(** The identifier given to a new document is not in use. *)
Lemma nuevo_id_fresco {A} (m : gmap str A) : m !! nuevo_id m = None.
Proof.
  destruct (m !! nuevo_id m) as [a|] eqn:E; [|done]. exfalso.
  apply elem_of_map_to_list in E.
  apply (list_elem_of_fmap_2 fst) in E. cbn in E.
  apply (list_elem_of_fmap_2 length) in E.
  apply max_list_elem_of_le in E.
  unfold nuevo_id in E. cbn [length replicate] in E.
  rewrite length_replicate in E. lia.
Qed.

(** ... and is not the empty string. *)
Lemma nuevo_id_truthy {A} (m : gmap str A) : truthy (nuevo_id m) = true.
Proof. done. Qed.

(** Every stored document is among the entities of its collection. *)
Lemma documentos_elem {A} (set_id : option str → A → A) (m : gmap str A)
  k a :
  m !! k = Some a → set_id (Some k) a ∈ documentos set_id m.
Proof.
  intros H. unfold documentos.
  apply (list_elem_of_fmap_2' _ _ (k, a)); [|done].
  by apply elem_of_map_to_list.
Qed.

Lemma documentos_vacio {A} (set_id : option str → A → A) :
  documentos set_id (∅ : gmap str A) = [].
Proof. unfold documentos. by rewrite map_to_list_empty. Qed.

(** Updating a document that exists stores the new entity under its key. *)
Lemma alter_presente {A} (m : gmap str A) k (a b : A) :
  m !! k = Some a → alter (λ _, b) k m = <[k := b]> m.
Proof.
  intros H. apply map_eq. intros j. destruct (decide (k = j)) as [<-|Hne].
  - by rewrite lookup_alter_eq, lookup_insert_eq, H.
  - by rewrite lookup_alter_ne, lookup_insert_ne.
Qed.

(** The lookup by contact finds a household as soon as one is stored with
    that contact. *)
Lemma buscar_por_contacto_existe (w : Mundo) k (f : Familia.t) contacto :
  db_familias w !! k = Some f →
  Familia.contacto f = contacto →
  ∃ g, FamiliaRepository.buscar_por_contacto contacto w = (Ok (Some g), w).
Proof.
  intros Hk Hc. unfold FamiliaRepository.buscar_por_contacto. desplegar.
  destruct (List.find _ _) as [g|] eqn:E; [by eexists|]. exfalso.
  apply (documentos_elem Familia.set_id) in Hk.
  apply list_elem_of_In in Hk.
  apply (find_none _ _ E) in Hk. cbn in Hk.
  by apply bool_decide_eq_false in Hk.
Qed.

(** ** [RegistrarFamilia] *)

(** C7. When some stored household has the contact of the registration
    input, [RegistrarFamilia] raises the duplicate-contact error (the
    conflict of the design document) for every value of the other inputs,
    valid or not: the entity constructor is not reached. The stored
    households, and the rest of the database, are as they were. *)
Theorem C7_contacto_duplicado (w : Mundo) k (f : Familia.t) ahora
  (direccion : str) (num_personas : Z) (contacto : str)
  (capacidad_almacenamiento : Z) (tiene_cisterna : bool) (zona : str)
  (consumo_promedio_diario : option Q) :
  db_familias w !! k = Some f →
  Familia.contacto f = contacto →
  RegistrarFamilia.ejecutar ahora direccion num_personas contacto
    capacidad_almacenamiento tiene_cisterna zona consumo_promedio_diario w
  = (Err (ValueError ContactoYaRegistrado), w)
  ∧ clase (ValueError ContactoYaRegistrado) = ConflictError.
Proof.
  intros Hk Hc. split; [|done].
  destruct (buscar_por_contacto_existe w k f contacto Hk Hc) as [g Hg].
  unfold RegistrarFamilia.ejecutar.
  unfold mbind at 1, M_bind at 1. by rewrite Hg.
Qed.

(** ** [CrearReporte] *)

Lemma TipoReporte_de_valor_value t :
  TipoReporte_de_valor (TipoReporte_value t) = Some t.
Proof. by destruct t. Qed.

Lemma Urgencia_de_valor_value u :
  Urgencia_de_valor (Urgencia_value u) = Some u.
Proof. by destruct u. Qed.

Lemma TipoCisterna_de_valor_value t :
  TipoCisterna_de_valor (TipoCisterna_value t) = Some t.
Proof. by destruct t. Qed.

(** The constructor of [Reporte] on fields that pass its checks. *)
Lemma Reporte_nuevo_ok ahora familia_id t descripcion u cisterna_id
  latitud longitud :
  en_blanco familia_id = false →
  en_blanco descripcion = false →
  Reporte.nuevo ahora
    (Reporte.mk familia_id t descripcion u PENDIENTE cisterna_id latitud
                longitud None None None None)
  = Ok (Reporte.mk familia_id t (strip descripcion) u PENDIENTE cisterna_id
                   latitud longitud (Some ahora) None None None).
Proof.
  intros H1 H2. unfold Reporte.nuevo, Reporte.post_init. desplegar. cbn.
  by rewrite H1, H2.
Qed.

(** C8. A call of [CrearReporte] for an existing household (and an existing
    tank when one is referred to), with a description that is not blank,
    returns a report and stores it under a new identifier. The stored
    report has urgency medium when the category is water-running-out and
    the requested urgency is low, and the requested urgency in every other
    case. *)
Theorem C8_urgencia_ajustada (w : Mundo) ahora (familia_id : str)
  (t : TipoReporte) (descripcion : str) (u : Urgencia)
  (cisterna_id : option str) (latitud longitud : option Q) :
  is_Some (db_familias w !! familia_id) →
  (∀ cid, cisterna_id = Some cid → cid ≠ [] →
          is_Some (db_cisternas w !! cid)) →
  en_blanco familia_id = false →
  en_blanco descripcion = false →
  ∃ r k,
    CrearReporte.ejecutar ahora familia_id (TipoReporte_value t) descripcion
      (Urgencia_value u) cisterna_id latitud longitud w
    = (Ok r, set_db_reportes (<[k := r]> (db_reportes w)) w)
    ∧ Reporte.id r = Some k
    ∧ db_reportes w !! k = None
    ∧ Reporte.tipo r = t
    ∧ (t = AGUA_ACABANDOSE → u = BAJA → Reporte.urgencia r = MEDIA)
    ∧ (¬ (t = AGUA_ACABANDOSE ∧ u = BAJA) → Reporte.urgencia r = u).
Proof.
  intros [f Hf] Hc Hid Hd.
  exists (Reporte.mk familia_id t (strip descripcion) (if bool_decide (t = AGUA_ACABANDOSE)
             then if bool_decide (u = BAJA) then MEDIA else u else u)
            PENDIENTE cisterna_id latitud longitud (Some ahora) None None
            (Some (nuevo_id (db_reportes w)))),
         (nuevo_id (db_reportes w)).
  split; [|split; [done|split; [apply nuevo_id_fresco|split; [done|]]]].
  - unfold CrearReporte.ejecutar, FamiliaRepository.obtener_por_id,
      CisternaRepository.obtener_por_id, ReporteRepository.guardar.
    desplegar.
    rewrite Hf, TipoReporte_de_valor_value, Urgencia_de_valor_value.
    cbn -[Reporte.nuevo nuevo_id].
    rewrite (Reporte_nuevo_ok _ _ _ _ _ _ _ _ Hid Hd).
    destruct cisterna_id as [cid|]; cbn -[nuevo_id]; [|done].
    destruct (truthy cid) eqn:Ht; [|done].
    apply truthy_no_vacia in Ht.
    by destruct (Hc cid eq_refl Ht) as [c ->].
  - cbn. split.
    + by intros -> ->.
    + intros Hn. destruct t, u; try done. by destruct Hn.
Qed.

(** ** [ObtenerDashboard] *)

Lemma len_nil {A} : len (@nil A) = 0%Z.
Proof. done. Qed.


(** ** [RegistrarCisterna] *)

(** The constructor of [Cisterna] raises a validation error on a blank
    location, a capacity that is not positive, a negative level or a level
    above the capacity. *)
Lemma Cisterna_nueva_invalida a1 a2 (campos : Cisterna.t) :
  (en_blanco (Cisterna.ubicacion campos) = true
   ∨ Cisterna.capacidad_total campos ≤ 0
   ∨ Cisterna.nivel_actual campos < 0
   ∨ Cisterna.nivel_actual campos > Cisterna.capacidad_total campos)%Z →
  ∃ e, Cisterna.nueva a1 a2 campos = Err e ∧ clase e = ValidationError.
Proof.
  intros H. unfold Cisterna.nueva, Cisterna.post_init. desplegar. cbn.
  destruct (en_blanco _) eqn:E0; [by eexists|].
  destruct (_ <=? _)%Z eqn:E1; [by eexists|].
  destruct (_ <? _)%Z eqn:E2; [by eexists|].
  destruct (_ >? _)%Z eqn:E3; [by eexists|]. exfalso.
  apply Z.leb_gt in E1. apply Z.ltb_ge in E2.
  rewrite Z.gtb_ltb in E3. apply Z.ltb_ge in E3.
  destruct H as [?|[?|[?|?]]]; [done|lia..].
Qed.

(** C10. [RegistrarCisterna] for a family tank, with a reference to a stored
    household that has no tank yet and with tank fields that the tank
    constructor rejects: the call raises a validation error, the household
    is stored with its flag set, and the tanks are as they were. *)
Theorem C10_bandera_sin_cisterna (w : Mundo) a1 a2 (ubicacion : str)
  (capacidad_total nivel_actual : Z) (latitud longitud : option Q)
  (fid : str) (f : Familia.t) :
  fid ≠ [] →
  db_familias w !! fid = Some f →
  Familia.tiene_cisterna f = false →
  (en_blanco ubicacion = true ∨ capacidad_total ≤ 0 ∨ nivel_actual < 0
   ∨ nivel_actual > capacidad_total)%Z →
  ∃ e f',
    RegistrarCisterna.ejecutar a1 a2 ubicacion (TipoCisterna_value FAMILIAR)
      capacidad_total nivel_actual latitud longitud (Some fid) w
    = (Err e, set_db_familias (<[fid := f']> (db_familias w)) w)
    ∧ clase e = ValidationError
    ∧ f' = Familia.set_tiene_cisterna true (Familia.set_id (Some fid) f)
    ∧ Familia.tiene_cisterna f' = true
    ∧ db_cisternas (set_db_familias (<[fid := f']> (db_familias w)) w)
      = db_cisternas w.
Proof.
  intros Hfid Hf Ht Hinv.
  destruct (Cisterna_nueva_invalida a1 a2
              (Cisterna.mk ubicacion FAMILIAR capacidad_total nivel_actual
                 latitud longitud (Some fid) OPERATIVA None None None) Hinv)
    as (e & He & Hcl).
  exists e, (Familia.set_tiene_cisterna true (Familia.set_id (Some fid) f)).
  split; [|done].
  apply truthy_no_vacia in Hfid.
  unfold RegistrarCisterna.ejecutar, FamiliaRepository.obtener_por_id,
    FamiliaRepository.actualizar.
  desplegar. rewrite TipoCisterna_de_valor_value.
  cbn -[Cisterna.nueva]. rewrite Hfid.
  case_bool_decide; [|done].
  cbn -[Cisterna.nueva]. rewrite Hf.
  cbn -[Cisterna.nueva]. rewrite Ht.
  cbn -[Cisterna.nueva]. rewrite Hfid.
  cbn -[Cisterna.nueva]. rewrite He.
  by rewrite (alter_presente _ _ f).
Qed.

(** ** [RegistrarLlenado] *)

(** The constructor of [Llenado] on fields that pass its checks. *)
Lemma Llenado_nuevo_ok ahora cid x costo proveedor na np observaciones :
  en_blanco cid = false →
  (0 < x)%Z →
  (0 <= costo)%Q →
  en_blanco proveedor = false →
  (0 ≤ na ≤ np)%Z →
  Llenado.nuevo ahora
    (Llenado.mk cid x costo proveedor na np None observaciones None)
  = Ok (Llenado.mk cid x costo (strip proveedor) na np (Some ahora)
          (if truthy_opt observaciones then strip <$> observaciones
           else observaciones)
          None).
Proof.
  intros Hc Hx Hq Hp [Ha Hn].
  unfold Llenado.nuevo, Llenado.post_init, Llenado.negativo. desplegar.
  cbn. rewrite Hc, Hp. apply Qle_bool_iff in Hq. rewrite Hq.
  destruct (x <=? 0)%Z eqn:E1; [apply Z.leb_le in E1; lia|].
  destruct (na <? 0)%Z eqn:E2; [apply Z.ltb_lt in E2; lia|].
  destruct (np <? na)%Z eqn:E3; [apply Z.ltb_lt in E3; lia|].
  cbn. by destruct (truthy_opt observaciones).
Qed.


(** ** The claims on the worked examples *)


(** A second registration with the contact of the stored household; the
    other fields would not pass the validation of the entity. *)
Lemma C7_contacto_duplicado_witness :
  RegistrarFamilia.ejecutar 9%Z [] 0 (py "70712345") 0 true [] None
    mundo_ejemplo
  = (Err (ValueError ContactoYaRegistrado), mundo_ejemplo).
Proof.
  assert (H1 : db_familias mundo_ejemplo !! py "f1" = Some familia_guardada)
    by reflexivity.
  assert (H2 : Familia.contacto familia_guardada = py "70712345")
    by reflexivity.
  exact (proj1 (C7_contacto_duplicado mundo_ejemplo (py "f1")
                  familia_guardada 9%Z [] 0 (py "70712345") 0 true [] None
                  H1 H2)).
Defined.

(** A report that the water is running out, requested with low urgency. *)
Lemma C8_urgencia_ajustada_witness :
  ∃ r,
    (CrearReporte.ejecutar 9%Z (py "f1") (py "agua_acabandose")
       (py "Queda agua para un dia") (py "baja") (Some (py "c1")) None None
       mundo_ejemplo).1 = Ok r
    ∧ Reporte.urgencia r = MEDIA.
Proof.
  assert (H1 : is_Some (db_familias mundo_ejemplo !! py "f1"))
    by (exists familia_guardada; reflexivity).
  assert (H2 : ∀ cid, Some (py "c1") = Some cid → cid ≠ [] →
                 is_Some (db_cisternas mundo_ejemplo !! cid)).
  { intros cid [= <-] _. exists cisterna_guardada. reflexivity. }
  assert (H3 : en_blanco (py "f1") = false) by reflexivity.
  assert (H4 : en_blanco (py "Queda agua para un dia") = false)
    by reflexivity.
  destruct (C8_urgencia_ajustada mundo_ejemplo 9%Z (py "f1") AGUA_ACABANDOSE
              (py "Queda agua para un dia") BAJA (Some (py "c1")) None None
              H1 H2 H3 H4)
    as (r & k & E & _ & _ & _ & Hm & _).
  exists r. split; [|exact (Hm eq_refl eq_refl)].
  change (py "agua_acabandose") with (TipoReporte_value AGUA_ACABANDOSE).
  change (py "baja") with (Urgencia_value BAJA).
  rewrite E. reflexivity.
Defined.


(** A family tank with a blank location, for the stored household. *)
Lemma C10_bandera_sin_cisterna_witness :
  ∃ e f',
    (RegistrarCisterna.ejecutar 7%Z 8%Z (py "  ") (py "familiar") 1000 0 None
       None (Some (py "f1")) mundo_ejemplo).1 = Err e
    ∧ db_familias
        (RegistrarCisterna.ejecutar 7%Z 8%Z (py "  ") (py "familiar") 1000 0
           None None (Some (py "f1")) mundo_ejemplo).2 !! py "f1" = Some f'
    ∧ Familia.tiene_cisterna f' = true
    ∧ db_cisternas
        (RegistrarCisterna.ejecutar 7%Z 8%Z (py "  ") (py "familiar") 1000 0
           None None (Some (py "f1")) mundo_ejemplo).2
      = db_cisternas mundo_ejemplo.
Proof.
  assert (H1 : py "f1" ≠ []) by discriminate.
  assert (H2 : db_familias mundo_ejemplo !! py "f1" = Some familia_guardada)
    by reflexivity.
  assert (H3 : Familia.tiene_cisterna familia_guardada = false)
    by reflexivity.
  assert (H4 : (en_blanco (py "  ") = true ∨ 1000 ≤ 0 ∨ 0 < 0 ∨ 0 > 1000)%Z)
    by (left; reflexivity).
  destruct (C10_bandera_sin_cisterna mundo_ejemplo 7%Z 8%Z (py "  ") 1000 0
              None None (py "f1") familia_guardada H1 H2 H3 H4)
    as (e & f' & E & _ & _ & Ht & Hc).
  exists e, f'.
  change (py "familiar") with (TipoCisterna_value FAMILIAR).
  rewrite E. simpl. split; [reflexivity|].
  split; [apply lookup_insert_eq|]. split; [exact Ht|reflexivity].
Defined.

(** A dashboard with all four alerts: an operational tank that is empty
    (so also at critical and at low level) and an urgent pending report. *)
Example dashboard_cuatro_alertas :
  let vacia := Cisterna.mk (py "Escuela 6 de Agosto") ESCOLAR 2000 0 None
                 None None OPERATIVA None (Some 1%Z) (Some 1%Z) in
  let urgente := Reporte.mk (py "f1") AGUA_CONTAMINADA (py "Agua turbia")
                   CRITICA EN_REVISION None None None (Some 3%Z) None None
                   None in
  let w := mkMundo ∅ {[ py "c2" := vacia ]} ∅ {[ py "r1" := urgente ]} in
  (λ a, (ObtenerDashboard.tipo a, ObtenerDashboard.cantidad a))
    <$> (match (ObtenerDashboard.ejecutar w).1 with
         | Ok d => ObtenerDashboard.alertas d
         | Err _ => []
         end)
  = [(py "critico", 1%Z); (py "urgente", 1%Z); (py "urgente", 1%Z);
     (py "advertencia", 1%Z)].
Proof. vm_compute. reflexivity. Qed.

(** * Further properties of the code *)

(** ** The blank test and the normalisation by [strip] *)

Lemma lstrip_nil (s : str) : lstrip s = [] ↔ forallb isspace s = true.
Proof.
  induction s as [|c s IH]; cbn; [done|].
  destruct (isspace c); cbn; [done|]. split; discriminate.
Qed.

Lemma lstrip_cabeza (s : str) c t : lstrip s = c :: t → isspace c = false.
Proof.
  induction s as [|d s IH]; cbn; [done|].
  destruct (isspace d) eqn:E; [done|]. by intros [= <- _].
Qed.

Lemma lstrip_fijo c (t : str) : isspace c = false → lstrip (c :: t) = c :: t.
Proof. intros H. cbn. by rewrite H. Qed.

(** What [lstrip] removes is white space, and what it leaves is the rest. *)
Lemma lstrip_sufijo (s : str) :
  ∃ p, s = p ++ lstrip s ∧ forallb isspace p = true.
Proof.
  induction s as [|c s (p & Hp & Hs)]; [by exists []|]. cbn.
  destruct (isspace c) eqn:E.
  - exists (c :: p). cbn. rewrite E, Hs. split; [|done]. by f_equal.
  - by exists [].
Qed.

Lemma forallb_rev {A} (f : A → bool) (l : list A) :
  forallb f (rev l) = forallb f l.
Proof.
  induction l as [|a l IH]; [done|]. cbn.
  rewrite forallb_app, IH. cbn. rewrite andb_true_r. apply andb_comm.
Qed.

Lemma strip_nil (s : str) : strip s = [] ↔ forallb isspace s = true.
Proof.
  unfold strip, rstrip. split.
  - intros H. apply (f_equal (@rev N)) in H. rewrite rev_involutive in H.
    cbn in H. apply lstrip_nil in H. rewrite forallb_rev in H.
    destruct (lstrip s) as [|c t] eqn:E; [by apply lstrip_nil|].
    apply lstrip_cabeza in E. cbn in H. by rewrite E in H.
  - intros H. apply lstrip_nil in H. by rewrite H.
Qed.

(** X1. The test [not s or not s.strip()] of the constructors holds exactly
    of the strings made of white space only, the empty string among them. *)
Theorem X1_en_blanco_solo_espacios (s : str) :
  en_blanco s = true ↔ ∀ c, c ∈ s → isspace c = true.
Proof.
  assert (Hf : forallb isspace s = true ↔ ∀ c, c ∈ s → isspace c = true).
  { rewrite forallb_forall. split; intros H c Hc; apply H;
      by apply list_elem_of_In. }
  rewrite <- Hf, <- strip_nil. unfold en_blanco.
  destruct s as [|c s]; [done|]. cbn [truthy negb orb].
  destruct (strip (c :: s)); cbn; split; congruence.
Qed.

Lemma strip_strip (s : str) : strip (strip s) = strip s.
Proof.
  unfold strip at 1. assert (Hl : lstrip (strip s) = strip s).
  { destruct (strip s) as [|c t] eqn:E; [done|]. apply lstrip_fijo.
    unfold strip, rstrip in E.
    destruct (lstrip_sufijo (rev (lstrip s))) as (p & Hp & _).
    apply (f_equal (@rev N)) in Hp.
    rewrite rev_involutive, rev_app_distr, E in Hp.
    destruct (lstrip s) as [|d u] eqn:E'; [done|].
    injection Hp as -> _. by apply lstrip_cabeza in E'. }
  rewrite Hl. unfold rstrip.
  assert (Hr : lstrip (rev (strip s)) = rev (strip s)).
  { unfold strip at 2, rstrip. rewrite rev_involutive.
    destruct (lstrip (rev (lstrip s))) as [|c t] eqn:E.
    - unfold strip, rstrip. by rewrite E.
    - unfold strip, rstrip. rewrite E, rev_involutive.
      apply lstrip_fijo. by apply lstrip_cabeza in E. }
  by rewrite Hr, rev_involutive.
Qed.

Lemma en_blanco_strip (s : str) : en_blanco s = false → en_blanco (strip s) = false.
Proof.
  unfold en_blanco. rewrite strip_strip.
  destruct s as [|c s]; [done|]. cbn [truthy negb orb].
  by destruct (strip (c :: s)).
Qed.

(** ** More on [Cisterna] *)

(** The constructor of [Cisterna], check by check. *)
Lemma Cisterna_nueva_eq a1 a2 (campos : Cisterna.t) :
  Cisterna.nueva a1 a2 campos =
    if en_blanco (Cisterna.ubicacion campos)
    then Err (ValueError UbicacionVacia)
    else if (Cisterna.capacidad_total campos <=? 0)%Z
    then Err (ValueError CapacidadTotalInvalida)
    else if (Cisterna.nivel_actual campos <? 0)%Z
    then Err (ValueError NivelActualNegativo)
    else if (Cisterna.nivel_actual campos >? Cisterna.capacidad_total campos)%Z
    then Err (ValueError NivelMayorQueCapacidad)
    else Ok (Cisterna.mk (strip (Cisterna.ubicacion campos))
               (Cisterna.tipo campos) (Cisterna.capacidad_total campos)
               (Cisterna.nivel_actual campos) (Cisterna.latitud campos)
               (Cisterna.longitud campos) (Cisterna.familia_id campos)
               (Cisterna.estado campos) (Cisterna.id campos)
               (Some (default a1 (Cisterna.fecha_instalacion campos)))
               (Some (default a2 (Cisterna.ultima_actualizacion campos)))).
Proof.
  unfold Cisterna.nueva, Cisterna.post_init. desplegar. cbn.
  destruct (en_blanco _); [done|]. destruct (_ <=? _)%Z; [done|].
  destruct (_ <? _)%Z; [done|]. destruct (_ >? _)%Z; [done|].
  unfold Cisterna.set_ubicacion. cbn.
  by destruct (Cisterna.fecha_instalacion campos),
       (Cisterna.ultima_actualizacion campos).
Qed.

(** X2. The constructor of [Cisterna] returns exactly when the location is
    not blank, the capacity is positive and the level lies between 0 and
    the capacity. The tank it returns has the location trimmed, the two
    dates defaulted to the clock readings, and every other field as
    given. *)
Theorem X2_Cisterna_nueva_contrato a1 a2 (campos : Cisterna.t) :
  (es_ok (Cisterna.nueva a1 a2 campos) = true
   ↔ en_blanco (Cisterna.ubicacion campos) = false
     ∧ (0 < Cisterna.capacidad_total campos)%Z
     ∧ (0 ≤ Cisterna.nivel_actual campos ≤ Cisterna.capacidad_total campos)%Z)
  ∧ ∀ c, Cisterna.nueva a1 a2 campos = Ok c →
      c = Cisterna.mk (strip (Cisterna.ubicacion campos))
            (Cisterna.tipo campos) (Cisterna.capacidad_total campos)
            (Cisterna.nivel_actual campos) (Cisterna.latitud campos)
            (Cisterna.longitud campos) (Cisterna.familia_id campos)
            (Cisterna.estado campos) (Cisterna.id campos)
            (Some (default a1 (Cisterna.fecha_instalacion campos)))
            (Some (default a2 (Cisterna.ultima_actualizacion campos))).
Proof.
  rewrite Cisterna_nueva_eq.
  destruct (en_blanco _) eqn:E0.
  { split; [split; [done|]|done]. by intros [? _]. }
  destruct (_ <=? _)%Z eqn:E1.
  { apply Z.leb_le in E1. split; [split; [done|lia]|done]. }
  destruct (_ <? _)%Z eqn:E2.
  { apply Z.ltb_lt in E2. split; [split; [done|lia]|done]. }
  destruct (_ >? _)%Z eqn:E3.
  { apply Z.gtb_gt in E3. split; [split; [done|lia]|done]. }
  apply Z.leb_gt in E1. apply Z.ltb_ge in E2.
  rewrite Z.gtb_ltb in E3. apply Z.ltb_ge in E3.
  split; [split; [intros _; repeat split; lia|done]|by intros c [= <-]].
Qed.

Lemma X2_Cisterna_nueva_contrato_witness :
  es_ok (Cisterna.nueva 1%Z 2%Z cisterna_ejemplo) = true
  ∧ es_ok (Cisterna.nueva 1%Z 2%Z
             (Cisterna.set_nivel_actual 1001 cisterna_ejemplo)) = false
  ∧ Cisterna.nueva 1%Z 2%Z cisterna_ejemplo
    = Ok (Cisterna.mk (py "Plaza 14 de Septiembre") COMUNITARIA 1000 800
            None None None OPERATIVA None (Some 1%Z) (Some 2%Z)).
Proof.
  destruct (X2_Cisterna_nueva_contrato 1%Z 2%Z cisterna_ejemplo)
    as [[_ H1] H2].
  destruct (X2_Cisterna_nueva_contrato 1%Z 2%Z
              (Cisterna.set_nivel_actual 1001 cisterna_ejemplo))
    as [[H3 _] _].
  split; [apply H1; simpl; repeat split; lia|].
  split.
  - destruct (es_ok (Cisterna.nueva 1%Z 2%Z
                       (Cisterna.set_nivel_actual 1001 cisterna_ejemplo)))
      eqn:E; [|reflexivity].
    destruct (H3 eq_refl) as (_ & _ & _ & H). simpl in H. lia.
  - destruct (Cisterna.nueva 1%Z 2%Z cisterna_ejemplo) as [c|e] eqn:E.
    + f_equal. exact (H2 c eq_refl).
    + discriminate E.
Defined.

(** X3. A tank that the constructor returned passes the constructor again
    unchanged, whatever the clock reads by then: building the entity anew
    from its own fields gives the same tank. *)
Theorem X3_Cisterna_nueva_estable a1 a2 b1 b2 (campos c : Cisterna.t) :
  Cisterna.nueva a1 a2 campos = Ok c →
  Cisterna.nueva b1 b2 c = Ok c.
Proof.
  rewrite !Cisterna_nueva_eq.
  destruct (en_blanco (Cisterna.ubicacion campos)) eqn:E0; [done|].
  destruct (_ <=? _)%Z eqn:E1; [done|]. destruct (_ <? _)%Z eqn:E2; [done|].
  destruct (_ >? _)%Z eqn:E3; [done|]. intros [= <-].
  cbn -[strip en_blanco].
  by rewrite (en_blanco_strip _ E0), strip_strip, E1, E2, E3.
Qed.

Lemma X3_Cisterna_nueva_estable_witness :
  ∃ c, Cisterna.nueva 1%Z 2%Z
         (Cisterna.set_ubicacion (py "  Plaza Sucre ") cisterna_ejemplo)
       = Ok c
       ∧ Cisterna.ubicacion c = py "Plaza Sucre"
       ∧ Cisterna.nueva 30%Z 40%Z c = Ok c.
Proof.
  eexists. split; [reflexivity|]. split; [reflexivity|].
  apply (X3_Cisterna_nueva_estable 1%Z 2%Z 30%Z 40%Z
           (Cisterna.set_ubicacion (py "  Plaza Sucre ") cisterna_ejemplo)).
  reflexivity.
Defined.

Lemma actualizar_nivel_eq ahora n (c : Cisterna.t) :
  Cisterna.actualizar_nivel ahora n c =
    if (n <? 0)%Z then (Err (ValueError NivelActualNegativo), c)
    else if (n >? Cisterna.capacidad_total c)%Z
    then (Err (ValueError NivelMayorQueCapacidad), c)
    else (Ok tt,
          Cisterna.set_ultima_actualizacion (Some ahora)
            (Cisterna.set_nivel_actual n c)).
Proof.
  unfold Cisterna.actualizar_nivel. desplegar.
  destruct (n <? 0)%Z; [done|]. cbn. by destruct (_ >? _)%Z.
Qed.

(** X4. [actualizar_nivel(n)] returns exactly when [0 <= n <= capacity]; it
    then sets the level to [n] and the time of the last update to the clock
    reading, and changes nothing else. When it raises, the tank is as it
    was. *)
Theorem X4_actualizar_nivel ahora (n : Z) (c : Cisterna.t) :
  (es_ok (Cisterna.actualizar_nivel ahora n c).1 = true
   ↔ (0 ≤ n ≤ Cisterna.capacidad_total c)%Z)
  ∧ (es_ok (Cisterna.actualizar_nivel ahora n c).1 = true →
     (Cisterna.actualizar_nivel ahora n c).2
     = Cisterna.set_ultima_actualizacion (Some ahora)
         (Cisterna.set_nivel_actual n c))
  ∧ (es_ok (Cisterna.actualizar_nivel ahora n c).1 = false →
     (Cisterna.actualizar_nivel ahora n c).2 = c).
Proof.
  rewrite actualizar_nivel_eq. destruct (n <? 0)%Z eqn:E1.
  { apply Z.ltb_lt in E1. cbn. repeat split; try done. lia. }
  apply Z.ltb_ge in E1. destruct (_ >? _)%Z eqn:E2.
  { apply Z.gtb_gt in E2. cbn. repeat split; try done. lia. }
  rewrite Z.gtb_ltb in E2. apply Z.ltb_ge in E2. cbn.
  repeat split; try done; lia.
Qed.

Lemma X4_actualizar_nivel_witness :
  Cisterna.nivel_actual
    (Cisterna.actualizar_nivel 9%Z 250 cisterna_ejemplo).2 = 250%Z
  ∧ (Cisterna.actualizar_nivel 9%Z 1001 cisterna_ejemplo).2
    = cisterna_ejemplo.
Proof.
  destruct (X4_actualizar_nivel 9%Z 250 cisterna_ejemplo) as (_ & H1 & _).
  destruct (X4_actualizar_nivel 9%Z 1001 cisterna_ejemplo) as (_ & _ & H2).
  split; [rewrite (H1 eq_refl); reflexivity|exact (H2 eq_refl)].
Defined.

(** X5. On a tank within its bounds, [llenar(x)] with [x > 0] adds
    [min(x, litros_para_llenar)] litres: what does not fit is dropped. The
    room left shrinks by as much, and the tank ends up full exactly when
    [x] was at least the room there was. *)
Theorem X5_llenar_agrega_lo_que_cabe ahora (x : Z) (c : Cisterna.t) :
  en_rango c →
  (0 < x)%Z →
  let c' := (Cisterna.llenar ahora x c).2 in
  (Cisterna.nivel_actual c' - Cisterna.nivel_actual c
   = Z.min x (Cisterna.litros_para_llenar c))%Z
  ∧ (Cisterna.litros_para_llenar c'
     = Cisterna.litros_para_llenar c
       - Z.min x (Cisterna.litros_para_llenar c))%Z
  ∧ (Cisterna.esta_llena c' = true
     ↔ (Cisterna.litros_para_llenar c ≤ x)%Z).
Proof.
  intros (Hc & Hl & Hu) Hx. rewrite llenar_eq.
  destruct (x <=? 0)%Z eqn:E; [apply Z.leb_le in E; lia|].
  unfold Cisterna.litros_para_llenar, Cisterna.esta_llena. cbn.
  repeat split; lia.
Qed.

Lemma X5_llenar_agrega_lo_que_cabe_witness :
  (Cisterna.nivel_actual (Cisterna.llenar 7%Z 500 cisterna_ejemplo).2
   - Cisterna.nivel_actual cisterna_ejemplo = 200)%Z
  ∧ Cisterna.esta_llena (Cisterna.llenar 7%Z 500 cisterna_ejemplo).2 = true.
Proof.
  assert (H1 : en_rango cisterna_ejemplo) by (unfold en_rango; simpl; lia).
  assert (H2 : (0 < 500)%Z) by lia.
  destruct (X5_llenar_agrega_lo_que_cabe 7%Z 500 cisterna_ejemplo H1 H2)
    as (Ha & _ & Hb).
  split; [rewrite Ha; reflexivity|]. apply Hb.
  unfold Cisterna.litros_para_llenar. simpl. lia.
Defined.

(** X6. On a tank within its bounds, a fill that fits is undone by
    consuming the same amount, and a consumption is undone by filling the
    same amount: both calls return and the level is the one before. *)
Theorem X6_llenar_consumir_inversos a b (x : Z) (c : Cisterna.t) :
  en_rango c →
  (0 < x)%Z →
  ((x ≤ Cisterna.litros_para_llenar c)%Z →
   (Cisterna.llenar a x c).1 = Ok tt
   ∧ (Cisterna.consumir b x (Cisterna.llenar a x c).2).1 = Ok tt
   ∧ Cisterna.nivel_actual
       (Cisterna.consumir b x (Cisterna.llenar a x c).2).2
     = Cisterna.nivel_actual c)
  ∧ ((x ≤ Cisterna.nivel_actual c)%Z →
     (Cisterna.consumir a x c).1 = Ok tt
     ∧ (Cisterna.llenar b x (Cisterna.consumir a x c).2).1 = Ok tt
     ∧ Cisterna.nivel_actual
         (Cisterna.llenar b x (Cisterna.consumir a x c).2).2
       = Cisterna.nivel_actual c).
Proof.
  intros (Hc & Hl & Hu) Hx. unfold Cisterna.litros_para_llenar.
  rewrite !llenar_eq, !consumir_eq.
  destruct (x <=? 0)%Z eqn:E; [apply Z.leb_le in E; lia|]. split; intros H.
  - cbn. destruct (_ >? _)%Z eqn:G; [apply Z.gtb_gt in G; lia|].
    cbn. repeat split. lia.
  - destruct (_ >? _)%Z eqn:G; [apply Z.gtb_gt in G; lia|].
    cbn. repeat split. lia.
Qed.

Lemma X6_llenar_consumir_inversos_witness :
  Cisterna.nivel_actual
    (Cisterna.consumir 8%Z 150 (Cisterna.llenar 7%Z 150 cisterna_ejemplo).2).2
  = 800%Z
  ∧ Cisterna.nivel_actual
      (Cisterna.llenar 8%Z 300 (Cisterna.consumir 7%Z 300 cisterna_ejemplo).2).2
    = 800%Z.
Proof.
  assert (H1 : en_rango cisterna_ejemplo) by (unfold en_rango; simpl; lia).
  destruct (X6_llenar_consumir_inversos 7%Z 8%Z 150 cisterna_ejemplo H1)
    as [Ha _]; [lia|].
  destruct (X6_llenar_consumir_inversos 7%Z 8%Z 300 cisterna_ejemplo H1)
    as [_ Hb]; [lia|].
  split.
  - apply Ha. unfold Cisterna.litros_para_llenar. simpl. lia.
  - apply Hb. simpl. lia.
Defined.

Lemma aplicar_solo_nivel (c : Cisterna.t) (op : Operacion) :
  ∃ n u, aplicar c op
         = Cisterna.set_ultima_actualizacion u (Cisterna.set_nivel_actual n c).
Proof.
  unfold aplicar. destruct op as [a x|a x]; cbn [metodo].
  - rewrite llenar_eq. destruct (x <=? 0)%Z; cbn [snd].
    + exists (Cisterna.nivel_actual c), (Cisterna.ultima_actualizacion c).
      by destruct c.
    + by eexists _, _.
  - rewrite consumir_eq.
    destruct (x <=? 0)%Z; [|destruct (_ >? _)%Z]; cbn [snd];
      try by eexists _, _.
    all: exists (Cisterna.nivel_actual c), (Cisterna.ultima_actualizacion c);
      by destruct c.
Qed.

(** X7. Filling and consuming only ever touch the level and the time of the
    last update: after any sequence of such calls the location, category,
    capacity, coordinates, owner, status, identifier and installation date
    of the tank are the ones it started with. *)
Theorem X7_historia_solo_nivel (ops : list Operacion) (c : Cisterna.t) :
  historia ops c
  = Cisterna.set_ultima_actualizacion
      (Cisterna.ultima_actualizacion (historia ops c))
      (Cisterna.set_nivel_actual (Cisterna.nivel_actual (historia ops c)) c).
Proof.
  unfold historia. revert c. induction ops as [|op ops IH]; intros c.
  - by destruct c.
  - cbn [foldl]. rewrite (IH (aplicar c op)) at 1.
    destruct (aplicar_solo_nivel c op) as (n & u & ->). by destruct c.
Qed.

(** ** More on [Familia] *)

(** The constructor of [Familia], check by check. *)
Lemma Familia_nueva_eq ahora (campos : Familia.t) :
  Familia.nueva ahora campos =
    if en_blanco (Familia.direccion campos)
    then Err (ValueError DireccionVacia)
    else if (Familia.num_personas campos <=? 0)%Z
    then Err (ValueError NumPersonasInvalido)
    else if (Familia.capacidad_almacenamiento campos <=? 0)%Z
    then Err (ValueError CapacidadAlmacenamientoInvalida)
    else if en_blanco (Familia.contacto campos)
    then Err (ValueError ContactoVacio)
    else Ok (Familia.mk (strip (Familia.direccion campos))
               (Familia.num_personas campos)
               (strip (Familia.contacto campos))
               (Familia.capacidad_almacenamiento campos)
               (Familia.tiene_cisterna campos)
               (strip (Familia.zona campos))
               (Some (default (inject_Z (Familia.num_personas campos * 50))
                              (Familia.consumo_promedio_diario campos)))
               (Familia.id campos)
               (Some (default ahora (Familia.fecha_registro campos)))
               (Familia.activo campos)).
Proof.
  unfold Familia.nueva, Familia.post_init. desplegar. cbn.
  destruct (en_blanco (Familia.direccion campos)); [done|].
  destruct (_ <=? _)%Z; [done|]. destruct (_ <=? _)%Z; [done|].
  destruct (en_blanco (Familia.contacto campos)); [done|].
  unfold Familia.set_direccion, Familia.set_contacto, Familia.set_zona. cbn.
  by destruct (Familia.fecha_registro campos),
       (Familia.consumo_promedio_diario campos).
Qed.

(** X8. The constructor of [Familia] returns exactly when the address and
    the contact are not blank and the number of persons and the capacity
    are positive. The household it returns has address, contact and zone
    trimmed, the consumption it was given or else 50 litres per person, and
    the registration date it was given or else the clock reading. *)
Theorem X8_Familia_nueva_contrato ahora (campos : Familia.t) :
  (es_ok (Familia.nueva ahora campos) = true
   ↔ en_blanco (Familia.direccion campos) = false
     ∧ (0 < Familia.num_personas campos)%Z
     ∧ (0 < Familia.capacidad_almacenamiento campos)%Z
     ∧ en_blanco (Familia.contacto campos) = false)
  ∧ ∀ f, Familia.nueva ahora campos = Ok f →
      f = Familia.mk (strip (Familia.direccion campos))
            (Familia.num_personas campos)
            (strip (Familia.contacto campos))
            (Familia.capacidad_almacenamiento campos)
            (Familia.tiene_cisterna campos)
            (strip (Familia.zona campos))
            (Some (default (inject_Z (Familia.num_personas campos * 50))
                           (Familia.consumo_promedio_diario campos)))
            (Familia.id campos)
            (Some (default ahora (Familia.fecha_registro campos)))
            (Familia.activo campos).
Proof.
  rewrite Familia_nueva_eq.
  destruct (en_blanco (Familia.direccion campos)) eqn:E0.
  { split; [split; [done|]|done]. by intros [? _]. }
  destruct (Familia.num_personas campos <=? 0)%Z eqn:E1.
  { apply Z.leb_le in E1. split; [split; [done|lia]|done]. }
  destruct (Familia.capacidad_almacenamiento campos <=? 0)%Z eqn:E2.
  { apply Z.leb_le in E2. split; [split; [done|lia]|done]. }
  destruct (en_blanco (Familia.contacto campos)) eqn:E3.
  { split; [split; [done|]|done]. by intros (_ & _ & _ & ?). }
  apply Z.leb_gt in E1. apply Z.leb_gt in E2.
  split; [split; [intros _; repeat split; (done || lia)|done]
         |by intros f [= <-]].
Qed.

Lemma X8_Familia_nueva_contrato_witness :
  ∃ f, Familia.nueva 1%Z familia_sin_zona = Ok f
       ∧ Familia.consumo_promedio_diario f = Some (inject_Z 200)
       ∧ Familia.fecha_registro f = Some 1%Z.
Proof.
  destruct (X8_Familia_nueva_contrato 1%Z familia_sin_zona) as [[_ H1] H2].
  destruct (Familia.nueva 1%Z familia_sin_zona) as [f|e] eqn:E.
  - exists f. split; [reflexivity|]. rewrite (H2 f eq_refl).
    split; reflexivity.
  - assert (H : es_ok (Err (A := Familia.t) e) = true).
    { apply H1. simpl. repeat split; (reflexivity || lia). }
    discriminate H.
Defined.

(** X9. A household that the constructor returned passes the constructor
    again unchanged, whatever the clock reads by then. *)
Theorem X9_Familia_nueva_estable a b (campos f : Familia.t) :
  Familia.nueva a campos = Ok f →
  Familia.nueva b f = Ok f.
Proof.
  rewrite !Familia_nueva_eq.
  destruct (en_blanco (Familia.direccion campos)) eqn:E0; [done|].
  destruct (Familia.num_personas campos <=? 0)%Z eqn:E1; [done|].
  destruct (Familia.capacidad_almacenamiento campos <=? 0)%Z eqn:E2; [done|].
  destruct (en_blanco (Familia.contacto campos)) eqn:E3; [done|].
  intros [= <-]. cbn -[strip en_blanco].
  by rewrite (en_blanco_strip _ E0), (en_blanco_strip _ E3), !strip_strip,
       E1, E2.
Qed.

Lemma X9_Familia_nueva_estable_witness :
  ∃ f, Familia.nueva 1%Z familia_sin_zona = Ok f
       ∧ Familia.nueva 99%Z f = Ok f.
Proof.
  eexists. split; [reflexivity|].
  apply (X9_Familia_nueva_estable 1%Z 99%Z familia_sin_zona). reflexivity.
Defined.

(** ** More on [Llenado] *)

(** The constructor of [Llenado], check by check. *)
Lemma Llenado_nuevo_eq ahora (campos : Llenado.t) :
  Llenado.nuevo ahora campos =
    if en_blanco (Llenado.cisterna_id campos)
    then Err (ValueError CisternaIdVacio)
    else if (Llenado.litros_suministrados campos <=? 0)%Z
    then Err (ValueError LitrosInvalidos)
    else if Llenado.negativo (Llenado.costo campos)
    then Err (ValueError CostoNegativo)
    else if en_blanco (Llenado.proveedor campos)
    then Err (ValueError ProveedorVacio)
    else if (Llenado.nivel_anterior campos <? 0)%Z
    then Err (ValueError NivelAnteriorNegativo)
    else if (Llenado.nivel_posterior campos <? Llenado.nivel_anterior campos)%Z
    then Err (ValueError NivelPosteriorMenor)
    else Ok (Llenado.mk (Llenado.cisterna_id campos)
               (Llenado.litros_suministrados campos) (Llenado.costo campos)
               (strip (Llenado.proveedor campos))
               (Llenado.nivel_anterior campos)
               (Llenado.nivel_posterior campos)
               (Some (default ahora (Llenado.fecha campos)))
               (if truthy_opt (Llenado.observaciones campos)
                then strip <$> Llenado.observaciones campos
                else Llenado.observaciones campos)
               (Llenado.id campos)).
Proof.
  unfold Llenado.nuevo, Llenado.post_init. desplegar. cbn.
  destruct (en_blanco (Llenado.cisterna_id campos)); [done|].
  destruct (_ <=? _)%Z; [done|]. destruct (Llenado.negativo _); [done|].
  destruct (en_blanco (Llenado.proveedor campos)); [done|].
  destruct (_ <? _)%Z; [done|]. destruct (_ <? _)%Z; [done|].
  unfold Llenado.set_proveedor. cbn.
  by destruct (truthy_opt _), (Llenado.fecha campos).
Qed.

(** X10. The constructor of [Llenado] returns exactly when the tank
    reference and the provider are not blank, the litres are positive, the
    cost is not negative, the level before is not negative and the level
    after is not under the level before. *)
Theorem X10_Llenado_nuevo_contrato ahora (campos : Llenado.t) :
  es_ok (Llenado.nuevo ahora campos) = true
  ↔ en_blanco (Llenado.cisterna_id campos) = false
    ∧ (0 < Llenado.litros_suministrados campos)%Z
    ∧ (0 <= Llenado.costo campos)%Q
    ∧ en_blanco (Llenado.proveedor campos) = false
    ∧ (0 ≤ Llenado.nivel_anterior campos ≤ Llenado.nivel_posterior campos)%Z.
Proof.
  rewrite Llenado_nuevo_eq. unfold Llenado.negativo.
  destruct (en_blanco (Llenado.cisterna_id campos)) eqn:E0.
  { split; [done|]. by intros [? _]. }
  destruct (_ <=? _)%Z eqn:E1.
  { apply Z.leb_le in E1. split; [done|lia]. }
  destruct (Qle_bool 0 (Llenado.costo campos)) eqn:E2; cbn [negb].
  2:{ split; [done|]. intros (_ & _ & H & _). apply Qle_bool_iff in H.
      congruence. }
  destruct (en_blanco (Llenado.proveedor campos)) eqn:E3.
  { split; [done|]. by intros (_ & _ & _ & ? & _). }
  destruct (Llenado.nivel_anterior campos <? 0)%Z eqn:E4.
  { apply Z.ltb_lt in E4. split; [done|lia]. }
  destruct (Llenado.nivel_posterior campos <? _)%Z eqn:E5.
  { apply Z.ltb_lt in E5. split; [done|lia]. }
  apply Z.leb_gt in E1. apply Z.ltb_ge in E4. apply Z.ltb_ge in E5.
  apply Qle_bool_iff in E2. done.
Qed.

(** X11. A refill record that the constructor returned passes the
    constructor again unchanged. *)
Theorem X11_Llenado_nuevo_estable a b (campos l : Llenado.t) :
  Llenado.nuevo a campos = Ok l →
  Llenado.nuevo b l = Ok l.
Proof.
  rewrite !Llenado_nuevo_eq.
  destruct (en_blanco (Llenado.cisterna_id campos)) eqn:E0; [done|].
  destruct (_ <=? _)%Z eqn:E1; [done|].
  destruct (Llenado.negativo _) eqn:E2; [done|].
  destruct (en_blanco (Llenado.proveedor campos)) eqn:E3; [done|].
  destruct (Llenado.nivel_anterior campos <? 0)%Z eqn:E4; [done|].
  destruct (Llenado.nivel_posterior campos <? _)%Z eqn:E5; [done|].
  intros [= <-]. cbn -[strip en_blanco].
  rewrite E0, E1, E2, (en_blanco_strip _ E3), E4, E5, strip_strip.
  do 2 f_equal.
  destruct (Llenado.observaciones campos) as [o|]; [|done].
  cbn -[strip]. destruct (truthy o) eqn:Ho; cbn -[strip].
  - rewrite strip_strip. by destruct (truthy (strip o)).
  - by rewrite Ho.
Qed.

Lemma X11_Llenado_nuevo_estable_witness :
  ∃ l, Llenado.nuevo 1%Z
         (Llenado.mk (py "c1") 500 350%Q (py " Aguas del Sur ") 800 1000
                     None (Some (py "  ")) None) = Ok l
       ∧ Llenado.observaciones l = Some []
       ∧ Llenado.nuevo 2%Z l = Ok l.
Proof.
  eexists. split; [reflexivity|]. split; [reflexivity|].
  apply (X11_Llenado_nuevo_estable 1%Z 2%Z
           (Llenado.mk (py "c1") 500 350%Q (py " Aguas del Sur ") 800 1000
                       None (Some (py "  ")) None)).
  reflexivity.
Defined.

(** ** More on [Reporte] *)

(** One operation never removes a resolution date, and an operation other
    than [resolver] never replaces one. *)
Lemma metodo_reporte_fecha (op : OperacionReporte) (r : Reporte.t) t0 :
  Reporte.fecha_resolucion r = Some t0 →
  is_Some (Reporte.fecha_resolucion (metodo_reporte op r).2)
  ∧ (sin_resolver op = true →
     Reporte.fecha_resolucion (metodo_reporte op r).2 = Some t0).
Proof.
  intros H. destruct op as [a e|a o|]; cbn [metodo_reporte sin_resolver].
  - unfold Reporte.cambiar_estado. desplegar. cbn.
    case_bool_decide; cbn; rewrite ?H; cbn; rewrite ?H; by split.
  - unfold Reporte.resolver. desplegar. cbn.
    destruct (truthy o); cbn; by split.
  - unfold Reporte.aumentar_urgencia. desplegar. cbn.
    destruct (Reporte.urgencia r); cbn; rewrite H; by split.
Qed.

(** X12. Once a report has a resolution date, no sequence of
    [cambiar_estado], [resolver] and [aumentar_urgencia] calls removes it,
    not even reopening the report; and as long as [resolver] is not among
    the calls, the date stays the one it was. *)
Theorem X12_fecha_resolucion_permanece (ops : list OperacionReporte)
  (r : Reporte.t) t0 :
  Reporte.fecha_resolucion r = Some t0 →
  is_Some (Reporte.fecha_resolucion (historia_reporte ops r))
  ∧ (forallb sin_resolver ops = true →
     Reporte.fecha_resolucion (historia_reporte ops r) = Some t0).
Proof.
  unfold historia_reporte. revert r t0.
  induction ops as [|op ops IH]; intros r t0 H; cbn [foldl forallb].
  - by split.
  - destruct (metodo_reporte_fecha op r t0 H) as [[t1 H1] H2].
    destruct (IH _ t1 H1) as [H3 H4]. split; [done|].
    intros [Hs Hf]%andb_prop. specialize (H2 Hs).
    rewrite H2 in H1. injection H1 as <-. by apply H4.
Qed.

Lemma X12_fecha_resolucion_permanece_witness :
  Reporte.fecha_resolucion
    (historia_reporte
       [CambiarEstado 200%Z PENDIENTE; AumentarUrgencia;
        CambiarEstado 300%Z CERRADO]
       reporte_resuelto)
  = Some 100%Z.
Proof.
  apply (X12_fecha_resolucion_permanece
           [CambiarEstado 200%Z PENDIENTE; AumentarUrgencia;
            CambiarEstado 300%Z CERRADO] reporte_resuelto 100%Z);
    reflexivity.
Defined.

Lemma cambiar_estado_eq a e (r : Reporte.t) :
  (Reporte.cambiar_estado a e r).2 =
    if bool_decide (e ∈ [RESUELTO; CERRADO])
    then Reporte.set_fecha_resolucion
           (Some (default a (Reporte.fecha_resolucion r)))
           (Reporte.set_estado e r)
    else Reporte.set_estado e r.
Proof.
  unfold Reporte.cambiar_estado. desplegar. cbn.
  destruct (bool_decide (e ∈ [RESUELTO; CERRADO])); [|done].
  destruct r as [? ? ? ? ? ? ? ? ? f ? ?]. by destruct f.
Qed.

Lemma metodo_reporte_resuelto (op : OperacionReporte) (r : Reporte.t) :
  (Reporte.esta_resuelto r = true → is_Some (Reporte.fecha_resolucion r)) →
  Reporte.esta_resuelto (metodo_reporte op r).2 = true →
  is_Some (Reporte.fecha_resolucion (metodo_reporte op r).2).
Proof.
  intros H. destruct op as [a e|a o|]; cbn [metodo_reporte].
  - rewrite cambiar_estado_eq. unfold Reporte.esta_resuelto.
    destruct (bool_decide (e ∈ [RESUELTO; CERRADO])) eqn:He; cbn.
    + intros _. by eexists.
    + by rewrite He.
  - unfold Reporte.resolver. desplegar. cbn.
    destruct (truthy o); cbn; intros _; by eexists.
  - unfold Reporte.aumentar_urgencia. desplegar. cbn.
    by destruct (Reporte.urgencia r).
Qed.

(** X13. A report that is resolved or closed has a resolution date: if this
    holds of a report (as it does of a new one, which is pending), it holds
    after every sequence of [cambiar_estado], [resolver] and
    [aumentar_urgencia] calls. *)
Theorem X13_resuelto_tiene_fecha (ops : list OperacionReporte)
  (r : Reporte.t) :
  (Reporte.esta_resuelto r = true → is_Some (Reporte.fecha_resolucion r)) →
  Reporte.esta_resuelto (historia_reporte ops r) = true →
  is_Some (Reporte.fecha_resolucion (historia_reporte ops r)).
Proof.
  unfold historia_reporte. revert r.
  induction ops as [|op ops IH]; intros r H; cbn [foldl]; [done|].
  apply IH. by apply metodo_reporte_resuelto.
Qed.

Lemma X13_resuelto_tiene_fecha_witness :
  let r := Reporte.mk (py "f1") FUGA_AGUA (py "Fuga") MEDIA PENDIENTE None
             None None (Some 1%Z) None None None in
  let ops := [CambiarEstado 5%Z EN_REVISION; CambiarEstado 9%Z CERRADO;
              AumentarUrgencia] in
  Reporte.esta_resuelto (historia_reporte ops r) = true
  ∧ is_Some (Reporte.fecha_resolucion (historia_reporte ops r)).
Proof.
  intros r ops.
  assert (H1 : Reporte.esta_resuelto r = true →
               is_Some (Reporte.fecha_resolucion r))
    by (intros H; discriminate H).
  assert (H2 : Reporte.esta_resuelto (historia_reporte ops r) = true)
    by reflexivity.
  split; [exact H2|]. exact (X13_resuelto_tiene_fecha ops r H1 H2).
Defined.

(** X14. [aumentar_urgencia] always returns and changes the urgency only:
    low becomes medium, medium high, high critical, and critical stays. So
    the urgency is never low afterwards, an urgent report stays urgent, and
    three calls make any report critical. *)
Theorem X14_aumentar_urgencia (r : Reporte.t) :
  let r' := (Reporte.aumentar_urgencia r).2 in
  (Reporte.aumentar_urgencia r).1 = Ok tt
  ∧ r' = Reporte.set_urgencia (Reporte.urgencia r') r
  ∧ Reporte.urgencia r'
    = match Reporte.urgencia r with
      | BAJA => MEDIA | MEDIA => ALTA | ALTA => CRITICA | CRITICA => CRITICA
      end
  ∧ (Reporte.es_urgente r = true → Reporte.es_urgente r' = true)
  ∧ Reporte.urgencia
      (historia_reporte [AumentarUrgencia; AumentarUrgencia; AumentarUrgencia]
                        r)
    = CRITICA.
Proof.
  unfold historia_reporte, Reporte.aumentar_urgencia, Reporte.es_urgente.
  desplegar. destruct r as [? ? ? u ? ? ? ? ? ? ? ?]. by destruct u.
Qed.

(** ** Enumerations *)

Lemma enum_de_valor_some {E} (miembros : list E) (valor : E → str) v m :
  enum_de_valor miembros valor v = Some m → valor m = v.
Proof.
  unfold enum_de_valor. intros H. apply find_some in H as [_ H].
  by apply bool_decide_eq_true in H.
Qed.

(** X15. Reading a category of tank, a category of report or an urgency
    from its text gives a member exactly when the text is that member's
    value: every value reads back as its member, and any other text, also
    one that differs in case or in surrounding space, is refused. *)
Theorem X15_enum_ida_y_vuelta (v : str) :
  (∀ t, TipoCisterna_de_valor v = Some t ↔ TipoCisterna_value t = v)
  ∧ (∀ t, TipoReporte_de_valor v = Some t ↔ TipoReporte_value t = v)
  ∧ (∀ u, Urgencia_de_valor v = Some u ↔ Urgencia_value u = v).
Proof.
  repeat split; try apply enum_de_valor_some; intros <-.
  - apply TipoCisterna_de_valor_value.
  - apply TipoReporte_de_valor_value.
  - apply Urgencia_de_valor_value.
Qed.

(** ** The queries of the repositories and the predicates of the entities *)

Lemma filter_filter_and {A} (f g : A → bool) (l : list A) :
  List.filter f (List.filter g l) = List.filter (λ a, g a && f a) l.
Proof.
  induction l as [|a l IH]; [done|]. cbn.
  destruct (g a); cbn; [destruct (f a)|]; by rewrite IH.
Qed.

(** X16. The database queries select by the stored text of a field; they
    agree with the predicates of the entities. The priority tanks are those
    for which [es_prioritaria] holds; the empty ones those for which
    [esta_vacia] holds, whatever their status; the tanks at critical level
    are the operational ones for which [nivel_critico] holds; and the
    urgent reports counted are those for which [es_urgente] holds and that
    are pending or in review, so never a resolved or closed one. *)
Theorem X16_consultas_y_predicados (w : Mundo) (p : Q) :
  CisternaRepository.obtener_prioritarias w
  = (Ok (List.filter Cisterna.es_prioritaria (CisternaRepository.todas w)), w)
  ∧ CisternaRepository.obtener_vacias w
    = (Ok (List.filter Cisterna.esta_vacia (CisternaRepository.todas w)), w)
  ∧ CisternaRepository.obtener_con_nivel_critico p w
    = (Ok (List.filter
             (λ c, bool_decide (Cisterna.estado c = OPERATIVA)
                   && Cisterna.nivel_critico p c)
             (CisternaRepository.todas w)), w)
  ∧ ReporteRepository.contar_urgentes w
    = (Ok (len (List.filter
                  (λ r, Reporte.es_urgente r
                        && bool_decide (Reporte.estado r
                                        ∈ [PENDIENTE; EN_REVISION]))
                  (ReporteRepository.todos w))), w)
  ∧ ∀ r, ReporteRepository.filtro_urgentes r = true →
         Reporte.esta_resuelto r = false.
Proof.
  unfold CisternaRepository.obtener_prioritarias,
    CisternaRepository.obtener_vacias,
    CisternaRepository.obtener_con_nivel_critico,
    CisternaRepository.operativas, ReporteRepository.contar_urgentes,
    consultar.
  split; [|split; [done|split; [|split]]].
  - do 2 f_equal. apply filter_ext. intros c.
    unfold Cisterna.es_prioritaria. by destruct (Cisterna.tipo c).
  - do 2 f_equal. rewrite filter_filter_and. apply filter_ext. intros c.
    f_equal. by destruct (Cisterna.estado c).
  - do 3 f_equal. apply filter_ext. intros r.
    unfold ReporteRepository.filtro_urgentes, Reporte.es_urgente.
    by destruct (Reporte.urgencia r), (Reporte.estado r).
  - intros r. unfold ReporteRepository.filtro_urgentes, Reporte.esta_resuelto.
    by destruct (Reporte.urgencia r), (Reporte.estado r).
Qed.

(** ** More on the repositories *)

Lemma set_db_familias_mismo (w : Mundo) : set_db_familias (db_familias w) w = w.
Proof. by destruct w. Qed.

Lemma set_db_cisternas_mismo (w : Mundo) :
  set_db_cisternas (db_cisternas w) w = w.
Proof. by destruct w. Qed.

Lemma set_db_reportes_mismo (w : Mundo) : set_db_reportes (db_reportes w) w = w.
Proof. by destruct w. Qed.

Lemma alter_ausente {A} (m : gmap str A) k (b : A) :
  m !! k = None → alter (λ _, b) k m = m.
Proof.
  intros H. apply map_eq. intros j. destruct (decide (k = j)) as [<-|Hne].
  - by rewrite lookup_alter_eq, H.
  - by rewrite lookup_alter_ne.
Qed.

Lemma len_documentos_insert {A} (set_id : option str → A → A)
  (m : gmap str A) k a :
  m !! k = None →
  len (documentos set_id (<[k := a]> m)) = (len (documentos set_id m) + 1)%Z.
Proof.
  intros H. unfold len, documentos. rewrite !length_fmap.
  rewrite (Permutation_length (map_to_list_insert m k a H)). cbn. lia.
Qed.





(** ** More on the use cases *)

(** X20. [RegistrarFamilia], [RegistrarLlenado] and [CrearReporte] write to
    the database only as their last steps: whenever one of them raises, for
    whatever inputs and database, the database is as it was before the
    call. *)
Theorem X20_error_sin_cambios (w : Mundo) :
  (∀ ahora direccion num_personas contacto capacidad tiene_cisterna zona
     consumo e,
     (RegistrarFamilia.ejecutar ahora direccion num_personas contacto
        capacidad tiene_cisterna zona consumo w).1 = Err e →
     (RegistrarFamilia.ejecutar ahora direccion num_personas contacto
        capacidad tiene_cisterna zona consumo w).2 = w)
  ∧ (∀ a1 a2 cisterna_id litros costo proveedor observaciones e,
       (RegistrarLlenado.ejecutar a1 a2 cisterna_id litros costo proveedor
          observaciones w).1 = Err e →
       (RegistrarLlenado.ejecutar a1 a2 cisterna_id litros costo proveedor
          observaciones w).2 = w)
  ∧ (∀ ahora familia_id tipo descripcion urgencia cisterna_id latitud
       longitud e,
       (CrearReporte.ejecutar ahora familia_id tipo descripcion urgencia
          cisterna_id latitud longitud w).1 = Err e →
       (CrearReporte.ejecutar ahora familia_id tipo descripcion urgencia
          cisterna_id latitud longitud w).2 = w).
Proof.
  split; [|split].
  - intros *. unfold RegistrarFamilia.ejecutar,
      FamiliaRepository.buscar_por_contacto, FamiliaRepository.guardar.
    desplegar. destruct (List.find _ _); [done|].
    cbn -[Familia.nueva nuevo_id]. by destruct (Familia.nueva _ _).
  - intros *. unfold RegistrarLlenado.ejecutar,
      CisternaRepository.obtener_por_id, CisternaRepository.actualizar,
      LlenadoRepository.guardar.
    desplegar. destruct (db_cisternas w !! cisterna_id) as [c|]; [|done].
    cbn -[Llenado.nuevo Cisterna.llenar nuevo_id].
    destruct (negb _); [done|].
    cbn -[Llenado.nuevo Cisterna.llenar nuevo_id].
    rewrite llenar_eq. destruct (litros <=? 0)%Z; [done|].
    cbn -[Llenado.nuevo nuevo_id]. rewrite Llenado_nuevo_eq.
    cbn -[nuevo_id en_blanco].
    destruct (en_blanco cisterna_id) eqn:Hid; [done|].
    destruct (litros <=? 0)%Z; [done|].
    destruct (Llenado.negativo costo); [done|].
    destruct (en_blanco proveedor); [done|].
    destruct (_ <? 0)%Z; [done|].
    destruct (_ <? _)%Z; [done|].
    cbn -[nuevo_id]. by rewrite (en_blanco_false_truthy _ Hid).
  - intros *. unfold CrearReporte.ejecutar,
      FamiliaRepository.obtener_por_id, CisternaRepository.obtener_por_id,
      ReporteRepository.guardar.
    desplegar. destruct (db_familias w !! familia_id); [|done].
    cbn -[Reporte.nuevo nuevo_id TipoReporte_de_valor Urgencia_de_valor].
    destruct (TipoReporte_de_valor tipo); [|done].
    cbn -[Reporte.nuevo nuevo_id Urgencia_de_valor].
    destruct (Urgencia_de_valor urgencia); [|done].
    cbn -[Reporte.nuevo nuevo_id].
    destruct (truthy_opt cisterna_id).
    + destruct (db_cisternas w !! _); [|done].
      cbn -[Reporte.nuevo nuevo_id]. by destruct (Reporte.nuevo _ _).
    + cbn -[Reporte.nuevo nuevo_id]. by destruct (Reporte.nuevo _ _).
Qed.

Lemma X20_error_sin_cambios_witness :
  (RegistrarLlenado.ejecutar 5%Z 6%Z (py "c1") 500 (-1)%Q (py "Aguas del Sur")
     None mundo_ejemplo).1 = Err (ValueError CostoNegativo)
  ∧ (RegistrarLlenado.ejecutar 5%Z 6%Z (py "c1") 500 (-1)%Q
       (py "Aguas del Sur") None mundo_ejemplo).2 = mundo_ejemplo.
Proof.
  assert (H : (RegistrarLlenado.ejecutar 5%Z 6%Z (py "c1") 500 (-1)%Q
                 (py "Aguas del Sur") None mundo_ejemplo).1
              = Err (ValueError CostoNegativo)) by reflexivity.
  split; [exact H|].
  exact (proj1 (proj2 (X20_error_sin_cambios mundo_ejemplo)) 5%Z 6%Z
           (py "c1") 500%Z (-1)%Q (py "Aguas del Sur") None _ H).
Defined.



Lemma RegistrarLlenado_exito (w : Mundo) a1 a2 (cid : str) (c : Cisterna.t)
  (x : Z) (costo : Q) (proveedor : str) (observaciones : option str) :
  db_cisternas w !! cid = Some c →
  Cisterna.estado c = OPERATIVA →
  (0 ≤ Cisterna.nivel_actual c ≤ Cisterna.capacidad_total c)%Z →
  (0 < x)%Z →
  (0 <= costo)%Q →
  en_blanco proveedor = false →
  en_blanco cid = false →
  RegistrarLlenado.ejecutar a1 a2 cid x costo proveedor observaciones w
  = (Ok (llenado_de w a2 cid c x costo proveedor observaciones),
     set_db_cisternas
       (<[cid := cisterna_llena_de a1 cid c x]> (db_cisternas w))
       (set_db_llenados
          (<[nuevo_id (db_llenados w) :=
               llenado_de w a2 cid c x costo proveedor observaciones]>
             (db_llenados w)) w)).
Proof.
  intros Hc He Hr Hx Hq Hp Hid. unfold llenado_de, cisterna_llena_de.
  set (np := Z.min (Cisterna.nivel_actual c + x) (Cisterna.capacidad_total c)).
  assert (Hll := Llenado_nuevo_ok a2 cid x costo proveedor
                   (Cisterna.nivel_actual c) np observaciones Hid Hx Hq Hp).
  unfold RegistrarLlenado.ejecutar, CisternaRepository.obtener_por_id,
    CisternaRepository.actualizar, LlenadoRepository.guardar.
  desplegar. rewrite Hc. cbn -[Llenado.nuevo Cisterna.llenar nuevo_id].
  rewrite He. case_bool_decide; [|done].
  cbn -[Llenado.nuevo Cisterna.llenar nuevo_id].
  rewrite llenar_eq. destruct (x <=? 0)%Z eqn:E; [apply Z.leb_le in E; lia|].
  cbn -[Llenado.nuevo nuevo_id]. fold np.
  rewrite Hll by (subst np; lia).
  cbn -[nuevo_id]. rewrite (en_blanco_false_truthy _ Hid).
  cbn -[nuevo_id]. by rewrite (alter_presente _ _ c).
Qed.



(** The lookup by contact finds nothing when no stored household has the
    contact. *)
Lemma buscar_por_contacto_ninguno (w : Mundo) contacto :
  (∀ k f, db_familias w !! k = Some f → Familia.contacto f ≠ contacto) →
  FamiliaRepository.buscar_por_contacto contacto w = (Ok None, w).
Proof.
  intros H. unfold FamiliaRepository.buscar_por_contacto. desplegar.
  destruct (List.find _ _) as [g|] eqn:E; [|done]. exfalso.
  apply find_some in E as [Hin Hg]. apply bool_decide_eq_true in Hg.
  apply list_elem_of_In in Hin. unfold FamiliaRepository.todas, documentos in Hin.
  apply list_elem_of_fmap in Hin as ([k f] & -> & Hkf).
  apply elem_of_map_to_list in Hkf. by apply (H k f Hkf).
Qed.

(** [RegistrarFamilia] on valid fields and a contact that no stored
    household has. *)
Lemma RegistrarFamilia_exito (w : Mundo) ahora (direccion : str)
  (num_personas : Z) (contacto : str) (capacidad : Z) (tiene_cisterna : bool)
  (zona : str) (consumo : option Q) :
  (∀ k f, db_familias w !! k = Some f → Familia.contacto f ≠ contacto) →
  en_blanco direccion = false →
  (0 < num_personas)%Z →
  (0 < capacidad)%Z →
  en_blanco contacto = false →
  let k := nuevo_id (db_familias w) in
  let f := Familia.mk (strip direccion) num_personas (strip contacto)
             capacidad tiene_cisterna (strip zona)
             (Some (default (inject_Z (num_personas * 50)) consumo))
             (Some k) (Some ahora) true in
  RegistrarFamilia.ejecutar ahora direccion num_personas contacto capacidad
    tiene_cisterna zona consumo w
  = (Ok f, set_db_familias (<[k := f]> (db_familias w)) w).
Proof.
  intros Hn Hd Hp Hc Hco k f. unfold RegistrarFamilia.ejecutar.
  unfold mbind at 1, M_bind at 1.
  rewrite (buscar_por_contacto_ninguno w contacto Hn).
  rewrite Familia_nueva_eq. cbn -[nuevo_id en_blanco strip].
  rewrite Hd, Hco.
  destruct (num_personas <=? 0)%Z eqn:E1; [apply Z.leb_le in E1; lia|].
  destruct (capacidad <=? 0)%Z eqn:E2; [apply Z.leb_le in E2; lia|].
  unfold FamiliaRepository.guardar. desplegar. done.
Qed.



(** X24. When the contact of the registration is already trimmed,
    [RegistrarFamilia] keeps the contacts of the stored households
    distinct: if no two stored households share a contact before the call,
    none do after it, whether the call returned or raised. *)
Theorem X24_contactos_unicos_conservados (w : Mundo) ahora
  (direccion : str) (num_personas : Z) (contacto : str) (capacidad : Z)
  (tiene_cisterna : bool) (zona : str) (consumo : option Q) :
  contactos_unicos (db_familias w) →
  strip contacto = contacto →
  contactos_unicos
    (db_familias
       (RegistrarFamilia.ejecutar ahora direccion num_personas contacto
          capacidad tiene_cisterna zona consumo w).2).
Proof.
  intros Hu Hs. unfold RegistrarFamilia.ejecutar.
  unfold mbind at 1, M_bind at 1.
  destruct (FamiliaRepository.buscar_por_contacto contacto w)
    as [[[g|]|e] w0] eqn:Hb;
    unfold FamiliaRepository.buscar_por_contacto in Hb; desplegar;
    injection Hb as Hb <-; try done.
  rewrite Familia_nueva_eq. cbn -[nuevo_id en_blanco strip].
  destruct (en_blanco direccion); [done|].
  destruct (num_personas <=? 0)%Z; [done|].
  destruct (capacidad <=? 0)%Z; [done|].
  destruct (en_blanco contacto); [done|].
  unfold FamiliaRepository.guardar. desplegar. cbn -[nuevo_id strip].
  rewrite Hs.
  assert (Hnone : ∀ k f, db_familias w !! k = Some f →
                    Familia.contacto f ≠ contacto).
  { intros k f Hk Hc.
    destruct (buscar_por_contacto_existe w k f contacto Hk Hc) as [g' Hg'].
    unfold FamiliaRepository.buscar_por_contacto in Hg'. desplegar.
    injection Hg' as Hg'. congruence. }
  pose proof (nuevo_id_fresco (db_familias w)) as Hf.
  intros k1 k2 f1 f2 H1 H2 Heq.
  destruct (decide (k1 = nuevo_id (db_familias w))) as [->|N1];
    destruct (decide (k2 = nuevo_id (db_familias w))) as [->|N2];
    try done.
  - rewrite lookup_insert_eq in H1. rewrite lookup_insert_ne in H2 by done.
    injection H1 as <-. cbn in Heq. by destruct (Hnone k2 f2 H2).
  - rewrite lookup_insert_eq in H2. rewrite lookup_insert_ne in H1 by done.
    injection H2 as <-. cbn in Heq. by destruct (Hnone k1 f1 H1).
  - rewrite lookup_insert_ne in H1 by done.
    rewrite lookup_insert_ne in H2 by done. by apply (Hu k1 k2 f1 f2).
Qed.

Lemma contactos_unicos_ejemplo : contactos_unicos (db_familias mundo_ejemplo).
Proof.
  intros k1 k2 f1 f2 H1 H2 _. simpl in H1, H2.
  apply lookup_singleton_Some in H1 as [<- _].
  by apply lookup_singleton_Some in H2 as [<- _].
Defined.

Lemma X24_contactos_unicos_conservados_witness :
  contactos_unicos
    (db_familias
       (RegistrarFamilia.ejecutar 9%Z (py "Calle Lanza 33") 3 (py "71700001")
          800 true (py "Ushpa Ushpa") None mundo_ejemplo).2).
Proof.
  apply (X24_contactos_unicos_conservados mundo_ejemplo 9%Z
           (py "Calle Lanza 33") 3 (py "71700001") 800 true
           (py "Ushpa Ushpa") None contactos_unicos_ejemplo).
  reflexivity.
Defined.





(** ** More on [RegistrarCisterna] *)





(** ** More on [ObtenerDashboard] *)

Lemma len_filter_le {A} (f : A → bool) (l : list A) :
  (0 ≤ len (List.filter f l) ≤ len l)%Z.
Proof.
  unfold len. induction l as [|a l IH]; cbn; [lia|].
  destruct (f a); cbn; lia.
Qed.

Lemma len_filter_mono {A} (f g : A → bool) (l : list A) :
  (∀ a, f a = true → g a = true) →
  (len (List.filter f l) ≤ len (List.filter g l))%Z.
Proof.
  intros H. unfold len. induction l as [|a l IH]; cbn; [lia|].
  destruct (f a) eqn:E; [rewrite (H a E); cbn; lia|].
  destruct (g a); cbn; lia.
Qed.

Lemma len_filter_particion {A} (f : A → bool) (l : list A) :
  (len (List.filter f l) + len (List.filter (λ a, negb (f a)) l) = len l)%Z.
Proof.
  unfold len. induction l as [|a l IH]; cbn; [lia|].
  destruct (f a); cbn; lia.
Qed.

(** A tank at or under the critical threshold is at or under a low
    threshold that is not smaller. *)
Lemma nivel_critico_bajo (p q : Q) (c : Cisterna.t) :
  (p <= q)%Q →
  Cisterna.nivel_critico p c = true → Cisterna.nivel_bajo q c = true.
Proof.
  unfold Cisterna.nivel_critico, Cisterna.nivel_bajo. intros Hpq H.
  apply Qle_bool_iff in H. apply Qle_bool_iff. by eapply Qle_trans.
Qed.

(** X29. The figures of one dashboard agree with each other: the households
    with and without a tank add up to the households; the tanks at critical
    level are among the tanks at low level, which are among the operational
    ones, which are among all tanks; the empty and the priority tanks, the
    active households, and the pending and the urgent reports are never
    more than their totals; and no figure is negative. *)
Theorem X29_dashboard_coherente (w : Mundo) :
  ∃ d,
    ObtenerDashboard.ejecutar w = (Ok d, w)
    ∧ (ObtenerDashboard.familias_con_cisterna d
       + ObtenerDashboard.familias_sin_cisterna d
       = ObtenerDashboard.familias_total d)%Z
    ∧ (0 ≤ ObtenerDashboard.familias_con_cisterna d)%Z
    ∧ (0 ≤ ObtenerDashboard.familias_sin_cisterna d)%Z
    ∧ (0 ≤ ObtenerDashboard.familias_activas d
         ≤ ObtenerDashboard.familias_total d)%Z
    ∧ (0 ≤ ObtenerDashboard.cisternas_nivel_critico d
         ≤ ObtenerDashboard.cisternas_nivel_bajo d)%Z
    ∧ (ObtenerDashboard.cisternas_nivel_bajo d
       ≤ ObtenerDashboard.cisternas_operativas d
       ≤ ObtenerDashboard.cisternas_total d)%Z
    ∧ (0 ≤ ObtenerDashboard.cisternas_vacias d
         ≤ ObtenerDashboard.cisternas_total d)%Z
    ∧ (0 ≤ ObtenerDashboard.cisternas_prioritarias d
         ≤ ObtenerDashboard.cisternas_total d)%Z
    ∧ (0 ≤ ObtenerDashboard.llenados_total d)%Z
    ∧ (0 ≤ ObtenerDashboard.reportes_pendientes d
         ≤ ObtenerDashboard.reportes_total d)%Z
    ∧ (0 ≤ ObtenerDashboard.reportes_urgentes d
         ≤ ObtenerDashboard.reportes_total d)%Z.
Proof.
  eexists. split.
  { unfold ObtenerDashboard.ejecutar, FamiliaRepository.contar_familias,
      FamiliaRepository.obtener_activas,
      FamiliaRepository.obtener_con_cisterna,
      FamiliaRepository.obtener_sin_cisterna,
      CisternaRepository.contar_cisternas,
      CisternaRepository.obtener_operativas,
      CisternaRepository.obtener_vacias,
      CisternaRepository.obtener_con_nivel_critico,
      CisternaRepository.obtener_con_nivel_bajo,
      CisternaRepository.obtener_prioritarias,
      CisternaRepository.calcular_capacidad_total,
      CisternaRepository.calcular_nivel_total,
      LlenadoRepository.contar_llenados,
      LlenadoRepository.calcular_costo_promedio_por_litro,
      LlenadoRepository.calcular_total_litros,
      LlenadoRepository.calcular_total_costo,
      ReporteRepository.contar_reportes, ReporteRepository.contar_por_estado,
      ReporteRepository.contar_urgentes.
    desplegar. cbv beta iota. reflexivity. }
  cbv beta iota zeta delta [ObtenerDashboard.familias_total
    ObtenerDashboard.familias_activas ObtenerDashboard.familias_con_cisterna
    ObtenerDashboard.familias_sin_cisterna ObtenerDashboard.cisternas_total
    ObtenerDashboard.cisternas_operativas ObtenerDashboard.cisternas_vacias
    ObtenerDashboard.cisternas_nivel_critico
    ObtenerDashboard.cisternas_nivel_bajo
    ObtenerDashboard.cisternas_prioritarias ObtenerDashboard.llenados_total
    ObtenerDashboard.reportes_total ObtenerDashboard.reportes_pendientes
    ObtenerDashboard.reportes_urgentes].
  pose proof (λ {A} (f : A → bool) l, proj1 (len_filter_le f l)) as H0.
  pose proof (λ {A} (f : A → bool) l, proj2 (len_filter_le f l)) as H1.
  repeat split; try apply H0; try apply H1.
  - apply len_filter_particion.
  - apply len_filter_mono. intros c. apply nivel_critico_bajo.
    unfold Qle. simpl. lia.
  - unfold len. lia.
Qed.

(** ** The endpoint that resolves a report *)


